(** * photowatermark: date resolution and text-overlay compositing

    A shallow embedding of [watermark_exif.py] and the properties of its
    date resolver, colour parser, position mapping, font loader and
    compositor.

    Conventions.
    - A Python [str] is a list of code points ([pystr]); a [bytes] object is
      a [list byte]; a Python [int] is a [Z].
    - A Python call that can raise returns a [result]; [try_except] is the
      [try: ... except Exception: ...] statement.
    - The library calls follow CPython's [datetime], [_strptime] and UTF-8
      codec, [piexif] and Pillow's [ImageColor], [ImageFont], [Image] and
      [ImageDraw].
    - The interpreter's Unicode tables are only fixed on ASCII.  What they
      say about the other code points is left open (the variables of
      section [Watermark]), so every statement holds whatever they are. *)

From Stdlib Require Import ZArith NArith Lia Ascii String DecimalString.
From Stdlib.Strings Require Import Byte.
From stdpp Require Import base option list gmap.

#[local] Open Scope Z_scope.

(** ** Python strings *)

Abbreviation pystr := (list N).

(** The code points of an ASCII literal. *)
Definition py (s : string) : pystr :=
  List.map N_of_ascii (list_ascii_of_string s).

Definition bytes_of (s : string) : list byte := list_byte_of_string s.

Definition is_ascii (c : N) : bool := (c <? 128)%N.

Definition ascii_decimal (c : N) : option Z :=
  if ((48 <=? c) && (c <=? 57))%N then Some (Z.of_N c - 48) else None.

(** [Py_UNICODE_ISSPACE] on ASCII: TAB, LF, VT, FF, CR, FS, GS, RS, US, SP. *)
Definition ascii_isspace (c : N) : bool :=
  ((9 <=? c) && (c <=? 13) || (28 <=? c) && (c <=? 32))%N.

Definition ascii_lower (c : N) : N :=
  if ((65 <=? c) && (c <=? 90))%N then (c + 32)%N else c.

Definition digit_char (d : Z) : N := Z.to_N (48 + d).

(** [str(n)] for an [int]. *)
Definition str_of_int (n : Z) : pystr := py (NilEmpty.string_of_int (Z.to_int n)).

(** [sep.join(parts)]. *)
Fixpoint join (sep : pystr) (parts : list pystr) : pystr :=
  match parts with
  | [] => []
  | [p] => p
  | p :: rest => p ++ sep ++ join sep rest
  end.

(** [s.replace(old, new, count)] for one-character [old] and [new]. *)
Fixpoint replace_char (old new : N) (count : nat) (s : pystr) : pystr :=
  match s with
  | [] => []
  | c :: s' =>
      match count with
      | O => s
      | S count' =>
          if (c =? old)%N then new :: replace_char old new count' s'
          else c :: replace_char old new count s'
      end
  end.

(** ** [bytes.decode('utf-8', errors='ignore')]

    CPython's decoder: an invalid start byte is dropped alone, an invalid
    continuation byte ends the sequence before it (the bytes read so far are
    dropped and decoding resumes at the offending byte), and a sequence cut
    by the end of the data is dropped. *)

Definition is_continuation (b : N) : bool := ((128 <=? b) && (b <=? 191))%N.

Fixpoint utf8_decode_ignore (bs : list byte) : pystr :=
  match bs with
  | [] => []
  | b0 :: r0 =>
      let c0 := Byte.to_N b0 in
      if (c0 <? 0x80)%N then c0 :: utf8_decode_ignore r0
      else if (c0 <? 0xC2)%N then utf8_decode_ignore r0
      else if (c0 <? 0xE0)%N then
        match r0 with
        | [] => []
        | b1 :: r1 =>
            let c1 := Byte.to_N b1 in
            if is_continuation c1
            then ((c0 - 0xC0) * 64 + (c1 - 0x80))%N :: utf8_decode_ignore r1
            else utf8_decode_ignore r0
        end
      else if (c0 <? 0xF0)%N then
        match r0 with
        | [] => []
        | b1 :: r1 =>
            let c1 := Byte.to_N b1 in
            if negb (is_continuation c1)
               || (if (c1 <? 0xA0)%N then (c0 =? 0xE0)%N else (c0 =? 0xED)%N)
            then utf8_decode_ignore r0
            else
              match r1 with
              | [] => []
              | b2 :: r2 =>
                  let c2 := Byte.to_N b2 in
                  if is_continuation c2
                  then ((c0 - 0xE0) * 4096 + (c1 - 0x80) * 64 + (c2 - 0x80))%N
                         :: utf8_decode_ignore r2
                  else utf8_decode_ignore r1
              end
        end
      else if (c0 <? 0xF5)%N then
        match r0 with
        | [] => []
        | b1 :: r1 =>
            let c1 := Byte.to_N b1 in
            if negb (is_continuation c1)
               || (if (c1 <? 0x90)%N then (c0 =? 0xF0)%N else (c0 =? 0xF4)%N)
            then utf8_decode_ignore r0
            else
              match r1 with
              | [] => []
              | b2 :: r2 =>
                  let c2 := Byte.to_N b2 in
                  if negb (is_continuation c2) then utf8_decode_ignore r1
                  else
                    match r2 with
                    | [] => []
                    | b3 :: r3 =>
                        let c3 := Byte.to_N b3 in
                        if is_continuation c3
                        then ((c0 - 0xF0) * 262144 + (c1 - 0x80) * 4096
                              + (c2 - 0x80) * 64 + (c3 - 0x80))%N
                               :: utf8_decode_ignore r3
                        else utf8_decode_ignore r2
                    end
              end
        end
      else utf8_decode_ignore r0
  end.

(** ** Exceptions *)

Inductive exn :=
| ValueError
| OSError
| AttributeError
| RecursionError
| RuntimeError (msg : pystr).

Inductive result (A : Type) :=
| Ok (a : A)
| Raise (e : exn).
Arguments Ok {A} a.
Arguments Raise {A} e.

#[global] Instance result_ret : MRet result := λ A a, Ok a.

#[global] Instance result_bind : MBind result := λ A B f r,
  match r with
  | Ok a => f a
  | Raise e => Raise e
  end.

(** [try: body  except Exception: handler]. *)
Definition try_except {A} (body : result A) (handler : exn -> result A) : result A :=
  match body with
  | Ok a => Ok a
  | Raise e => handler e
  end.

(** ** The proleptic Gregorian calendar of [datetime] *)

Definition MINYEAR := 1.
Definition MAXYEAR := 9999.

Definition _is_leap (year : Z) : bool :=
  (year mod 4 =? 0) && (negb (year mod 100 =? 0) || (year mod 400 =? 0)).

Definition _DAYS_IN_MONTH : list Z :=
  [-1; 31; 28; 31; 30; 31; 30; 31; 31; 30; 31; 30; 31].

Definition _DAYS_BEFORE_MONTH : list Z :=
  [-1; 0; 31; 59; 90; 120; 151; 181; 212; 243; 273; 304; 334].

Definition table_get (t : list Z) (i : Z) : Z := nth (Z.to_nat i) t 0.

Definition _days_in_month (year month : Z) : Z :=
  if (month =? 2) && _is_leap year then 29 else table_get _DAYS_IN_MONTH month.

Definition _check_date_fields (year month day : Z) : result unit :=
  if negb ((MINYEAR <=? year) && (year <=? MAXYEAR)) then Raise ValueError
  else if negb ((1 <=? month) && (month <=? 12)) then Raise ValueError
  else if negb ((1 <=? day) && (day <=? _days_in_month year month)) then Raise ValueError
  else Ok tt.

Definition _check_time_fields (hour minute second : Z) : result unit :=
  if negb ((0 <=? hour) && (hour <=? 23)) then Raise ValueError
  else if negb ((0 <=? minute) && (minute <=? 59)) then Raise ValueError
  else if negb ((0 <=? second) && (second <=? 59)) then Raise ValueError
  else Ok tt.

Record datetime := {
  year : Z; month : Z; day : Z;
  hour : Z; minute : Z; second : Z
}.

(** The constructor [datetime(year, month, day, hour, minute, second)]. *)
Definition mk_datetime (y m d hh mm ss : Z) : result datetime :=
  _ ← _check_date_fields y m d;
  _ ← _check_time_fields hh mm ss;
  Ok {| year := y; month := m; day := d; hour := hh; minute := mm; second := ss |}.

Definition _DI400Y := 146097.
Definition _DI100Y := 36524.
Definition _DI4Y := 1461.

(** [_ord2ymd]: ordinal (1 is 0001-01-01) to (year, month, day).  Python's
    [divmod] rounds down, as [Z.div] and [Z.modulo] do. *)
Definition _ord2ymd (n : Z) : Z * Z * Z :=
  let n := n - 1 in
  let n400 := n / _DI400Y in
  let n := n mod _DI400Y in
  let year := n400 * 400 + 1 in
  let n100 := n / _DI100Y in
  let n := n mod _DI100Y in
  let n4 := n / _DI4Y in
  let n := n mod _DI4Y in
  let n1 := n / 365 in
  let n := n mod 365 in
  let year := year + (n100 * 100 + n4 * 4 + n1) in
  if (n1 =? 4) || (n100 =? 4) then (year - 1, 12, 31)
  else
    let leapyear := (n1 =? 3) && (negb (n4 =? 24) || (n100 =? 3)) in
    let month := Z.shiftr (n + 50) 5 in
    let preceding :=
      table_get _DAYS_BEFORE_MONTH month
      + (if (2 <? month) && leapyear then 1 else 0) in
    let '(month, preceding) :=
      if n <? preceding
      then (month - 1,
            preceding - (table_get _DAYS_IN_MONTH (month - 1)
                         + (if (month - 1 =? 2) && leapyear then 1 else 0)))
      else (month, preceding) in
    (year, month, n - preceding + 1).

(** [date(1970, 1, 1).toordinal()]. *)
Definition EPOCH_ORDINAL := 719163.

(** The fields of [strftime]: month and day on two digits, zero-filled.
    The year of [%Y] is on four digits, zero-filled, where the platform's
    [strftime] pads it, and as it is where it does not (glibc): they differ
    below the year 1000. *)
Definition zfill2 (n : Z) : pystr := [digit_char (n / 10 mod 10); digit_char (n mod 10)].

Definition zfill4 (n : Z) : pystr :=
  [digit_char (n / 1000 mod 10); digit_char (n / 100 mod 10);
   digit_char (n / 10 mod 10); digit_char (n mod 10)].

Definition year_text (padded : bool) (y : Z) : pystr :=
  if padded then zfill4 y else str_of_int y.

(** ** EXIF data as [piexif.load] returns it *)

(** A field with numeric components: one [int], or a tuple of them (a
    rational is a pair). *)
#[warnings="-register-all"]
Inductive num_value :=
| NInt (n : Z)
| NTuple (items : list num_value).

Inductive exif_value :=
| VBytes (b : list byte)
| VStr (s : pystr)
| VNum (v : num_value).

(** An entry of the dictionary: the tags of one IFD, or something that is
    not a dictionary (the thumbnail). *)
Inductive ifd_entry :=
| IfdTags (tags : gmap Z exif_value)
| IfdOther.

(** [piexif.ExifIFD.DateTimeOriginal], [piexif.ExifIFD.DateTimeDigitized]
    and [piexif.ImageIFD.DateTime]. *)
Definition DateTimeOriginal := 36867.
Definition DateTimeDigitized := 36868.
Definition DateTime := 306.

(** [repr] of a numeric field, which is also its [str]. *)
Fixpoint repr_num (v : num_value) : pystr :=
  match v with
  | NInt n => str_of_int n
  | NTuple [item] => py "(" ++ repr_num item ++ py ",)"
  | NTuple items => py "(" ++ join (py ", ") (List.map repr_num items) ++ py ")"
  end.

(** Truth value of [value] in [if value:]; an absent tag is [None]. *)
Definition truthy (value : option exif_value) : bool :=
  match value with
  | None => false
  | Some (VBytes b) => negb (bool_decide (b = []))
  | Some (VStr s) => negb (bool_decide (s = []))
  | Some (VNum (NInt n)) => negb (n =? 0)
  | Some (VNum (NTuple items)) => negb (bool_decide (items = []))
  end.

(** ** The files the program reads *)

Record world := {
  (** [piexif.load(path)]; [None] when it raises. *)
  piexif_load : pystr -> option (gmap string ifd_entry);
  (** [os.path.getmtime(path)] in whole seconds, as [fromtimestamp] rounds
      it; [None] when it raises. *)
  getmtime : pystr -> option Z;
  (** Offset of local time from UTC, in seconds, at an instant. *)
  utcoffset : Z -> Z
}.

(** ** Regular expressions, as [re.match] runs them

    Alternatives are tried in order and the first way to match the whole
    pattern wins; [RPlus] is greedy. *)

Inductive char_set :=
| CDigit                    (* \d *)
| CSpace                    (* \s *)
| CRange (lo hi : N).       (* [lo-hi] *)

Inductive regex :=
| REmpty
| RChar (c : N)
| RSet (p : char_set)
| RSeq (r1 r2 : regex)
| RAlt (r1 r2 : regex)
| RPlus (p : char_set)
| RGroup (name : N) (r : regex).

Definition ch (a : ascii) : N := N_of_ascii a.

Definition seqs (rs : list regex) : regex := foldr RSeq REmpty rs.

Fixpoint alts (rs : list regex) : regex :=
  match rs with
  | [] => RSet (CRange 1 0)
  | [r] => r
  | r :: rs' => RAlt r (alts rs')
  end.

Definition lit (a : ascii) : regex := RChar (ch a).
Definition rng (lo hi : ascii) : regex := RSet (CRange (ch lo) (ch hi)).
Definition digit : regex := RSet CDigit.

(** The directives of [_strptime.TimeRE] that the program uses. *)
Definition directive (d : N) : option regex :=
  if (d =? ch "d")%N then
    Some (RGroup d (alts [seqs [lit "3"; rng "0" "1"]; seqs [rng "1" "2"; digit];
                          seqs [lit "0"; rng "1" "9"]; rng "1" "9";
                          seqs [lit " "; rng "1" "9"]]))
  else if (d =? ch "H")%N then
    Some (RGroup d (alts [seqs [lit "2"; rng "0" "3"]; seqs [rng "0" "1"; digit]; digit]))
  else if (d =? ch "M")%N then
    Some (RGroup d (alts [seqs [rng "0" "5"; digit]; digit]))
  else if (d =? ch "S")%N then
    Some (RGroup d (alts [seqs [lit "6"; rng "0" "1"]; seqs [rng "0" "5"; digit]; digit]))
  else if (d =? ch "m")%N then
    Some (RGroup d (alts [seqs [lit "1"; rng "0" "2"]; seqs [lit "0"; rng "1" "9"];
                          rng "1" "9"]))
  else if (d =? ch "Y")%N then
    Some (RGroup d (seqs [digit; digit; digit; digit]))
  else None.

(** ** Fonts and images *)

Inductive font :=
| FreeTypeFont (file : pystr) (size : Z)
| DefaultFont.

Record font_env := {
  (** Does [ImageFont.truetype(file, size)] return a font? *)
  truetype_loads : pystr -> Z -> bool;
  (** Does [ImageFont.load_default()] return a font? *)
  default_loads : bool
}.

Definition rgba := (Z * Z * Z * Z)%type.

(** What an image shows, as the history of the Pillow calls that made it:
    rasterising text is FreeType's business. *)
Inductive pixels :=
| Decoded (file : pystr)                             (* Image.open(file) *)
| Converted (mode : string) (src : pixels)           (* im.convert(mode) *)
| Blank (color : rgba)                               (* Image.new(mode, size, color) *)
| DrawText (under : pixels) (xy : Z * Z) (text : pystr) (f : font) (fill : rgba)
                                                     (* draw.text(xy, text, font, fill) *)
| AlphaComposite (dst src : pixels).                 (* Image.alpha_composite(dst, src) *)

Record image := {
  im_mode : string;
  im_size : Z * Z;
  im_pixels : pixels
}.

(** Image objects live in a store and are named by references: [draw.text]
    changes the image it was made for in place. *)
Abbreviation ref := positive.

(** One call of [draw.text]. *)
Record text_draw := {
  td_xy : Z * Z;
  td_text : pystr;
  td_font : font;
  td_fill : rgba
}.

(** The calls of [draw.text] behind an image, oldest first. *)
Fixpoint text_draws (p : pixels) : list text_draw :=
  match p with
  | DrawText under xy text f fill =>
      text_draws under ++ [{| td_xy := xy; td_text := text; td_font := f; td_fill := fill |}]
  | _ => []
  end.

(** A call on the store of images; [None] when a reference names no image
    or Pillow refuses the arguments. *)
Definition cmd (A : Type) : Type := gmap ref image -> option (A * gmap ref image).

#[global] Instance cmd_ret : MRet cmd := λ A a h, Some (a, h).

#[global] Instance cmd_bind : MBind cmd := λ A B f c h,
  match c h with
  | Some (a, h') => f a h'
  | None => None
  end.

(** [for x in xs: body(x)]. *)
Fixpoint for_each {A} (xs : list A) (body : A -> cmd unit) : cmd unit :=
  match xs with
  | [] => mret tt
  | x :: xs' => _ ← body x; for_each xs' body
  end.

Definition alloc (im : image) : cmd ref := λ h,
  let r := fresh (dom h) in Some (r, <[r := im]> h).

Definition read (r : ref) : cmd image := λ h,
  match h !! r with
  | Some im => Some (im, h)
  | None => None
  end.

(** [im.convert(mode)]: always a new image. *)
Definition convert (im : ref) (mode : string) : cmd ref :=
  i ← read im;
  alloc {| im_mode := mode; im_size := im_size i;
           im_pixels := Converted mode (im_pixels i) |}.

(** [Image.new(mode, size, color)]. *)
Definition Image_new (mode : string) (size : Z * Z) (color : rgba) : cmd ref :=
  alloc {| im_mode := mode; im_size := size; im_pixels := Blank color |}.

(** [draw.text(xy, text, font=font, fill=fill)], [draw] being
    [ImageDraw.Draw(im)]. *)
Definition draw_text (draw : ref) (xy : Z * Z) (text : pystr) (f : font) (fill : rgba)
    : cmd unit := λ h,
  match h !! draw with
  | Some i =>
      Some (tt, <[draw := {| im_mode := im_mode i; im_size := im_size i;
                             im_pixels := DrawText (im_pixels i) xy text f fill |}]> h)
  | None => None
  end.

(** [Image.alpha_composite(im1, im2)]: both RGBA and of one size. *)
Definition alpha_composite (im1 im2 : ref) : cmd ref :=
  i1 ← read im1;
  i2 ← read im2;
  if bool_decide (im_mode i1 = "RGBA"%string ∧ im_mode i2 = "RGBA"%string
                  ∧ im_size i1 = im_size i2)
  then alloc {| im_mode := "RGBA"; im_size := im_size i1;
                im_pixels := AlphaComposite (im_pixels i1) (im_pixels i2) |}
  else λ _, None.

(** ** Sample inputs *)

(** A Unicode database with no digit and no blank beyond ASCII, and a
    [lower] that leaves the other strings as they are. *)
Definition ascii_only_decimal : N -> option Z := fun _ => None.
Definition ascii_only_isspace : N -> bool := fun _ => false.
Definition ascii_only_lower : pystr -> pystr := fun s => s.

Definition sample_colormap : gmap pystr pystr :=
  {[ py "white" := py "#ffffff"; py "black" := py "#000000" ]}.

Definition no_functional : pystr -> option (list Z) := fun _ => None.

Definition sample_textbbox : pystr -> font -> Z * Z * Z * Z :=
  fun _ _ => (0, 0, 120, 30).

(** Metadata whose first candidate was never set by the camera, with two
    well-formed candidates after it. *)
Definition sample_exif : gmap string ifd_entry :=
  {[ "Exif"%string :=
       IfdTags {[ DateTimeOriginal := VBytes (bytes_of "0000:00:00 00:00:00");
                  DateTimeDigitized := VBytes (bytes_of "2022:01:02 03:04:05") ]};
     "0th"%string :=
       IfdTags {[ DateTime := VBytes (bytes_of "2021:06:07 08:09:10") ]} ]}.

(** 1710504000 is 2024-03-15 12:00:00 UTC; 253402300800 is the first second
    of the year 10000. *)
Definition sample_world : world :=
  {| piexif_load := fun _ => Some sample_exif;
     getmtime := fun _ => Some 1710504000;
     utcoffset := fun _ => 0 |}.

Definition bare_world : world :=
  {| piexif_load := fun _ => None;
     getmtime := fun _ => Some 1710504000;
     utcoffset := fun _ => 0 |}.

Definition far_world : world :=
  {| piexif_load := fun _ => None;
     getmtime := fun _ => Some 253402300800;
     utcoffset := fun _ => 0 |}.

(** A capture time in the year 999. *)
Definition old_world : world :=
  {| piexif_load := fun _ =>
       Some {[ "Exif"%string :=
                 IfdTags {[ DateTimeOriginal :=
                              VBytes (bytes_of "0999:05:01 12:00:00") ]} ]};
     getmtime := fun _ => Some 1710504000;
     utcoffset := fun _ => 0 |}.

(** No metadata, and a last-modified time one second before the year 1000:
    -30610224001 is 0999-12-31 23:59:59 UTC. *)
Definition early_world : world :=
  {| piexif_load := fun _ => None;
     getmtime := fun _ => Some (-30610224001);
     utcoffset := fun _ => 0 |}.

(** Metadata whose only candidate was never set by the camera. *)
Definition unset_world : world :=
  {| piexif_load := fun _ =>
       Some {[ "Exif"%string :=
                 IfdTags {[ DateTimeOriginal :=
                              VBytes (bytes_of "0000:00:00 00:00:00") ]} ]};
     getmtime := fun _ => Some 1710504000;
     utcoffset := fun _ => 0 |}.

(** Metadata whose first candidate is written with hyphens in the date, and
    whose second candidate is written with colons. *)
Definition hyphenated_exif : gmap string ifd_entry :=
  {[ "Exif"%string :=
       IfdTags {[ DateTimeOriginal := VBytes (bytes_of "2023-05-01 12:00:00");
                  DateTimeDigitized := VBytes (bytes_of "2022:01:02 03:04:05") ]} ]}.

Definition hyphenated_world : world :=
  {| piexif_load := fun _ => Some hyphenated_exif;
     getmtime := fun _ => Some 1710504000;
     utcoffset := fun _ => 0 |}.

Definition no_truetype : font_env :=
  {| truetype_loads := fun _ _ => false; default_loads := true |}.

Definition sample_store : gmap ref image :=
  {[ 1%positive := {| im_mode := "RGB"; im_size := (800, 600);
                      im_pixels := Decoded (py "a.jpg") |} ]}.

Section Watermark.

(** The Unicode database beyond ASCII: the decimal value of a code point
    ([None] when it is not a decimal digit), whether it is white space, and
    [str.lower()] on a string that is not pure ASCII. *)
Variable uni_decimal : N -> option Z.
Variable uni_isspace : N -> bool.
Variable uni_lower : pystr -> pystr.

(** Whether the platform's [strftime] zero-fills the year of [%Y]. *)
Variable pads_year : bool.

(** [dt.strftime("%Y-%m-%d")]. *)
Definition strftime_ymd (dt : datetime) : pystr :=
  year_text pads_year (year dt) ++ py "-" ++ zfill2 (month dt) ++ py "-"
  ++ zfill2 (day dt).

Definition decimal (c : N) : option Z :=
  if is_ascii c then ascii_decimal c else uni_decimal c.

Definition isspace (c : N) : bool :=
  if is_ascii c then ascii_isspace c else uni_isspace c.

Definition lower (s : pystr) : pystr :=
  if forallb is_ascii s then List.map ascii_lower s else uni_lower s.

Fixpoint lstrip (s : pystr) : pystr :=
  match s with
  | c :: s' => if isspace c then lstrip s' else s
  | [] => []
  end.

Definition strip (s : pystr) : pystr := rev (lstrip (rev (lstrip s))).

Fixpoint digits_value (acc : Z) (s : pystr) : option Z :=
  match s with
  | [] => Some acc
  | c :: s' =>
      match decimal c with
      | Some d => digits_value (10 * acc + d) s'
      | None => None
      end
  end.

(** [int(s)] on blanks and decimal digits, which is all a group of the
    patterns above can hold (no sign, no underscore). *)
Definition py_int (s : pystr) : result Z :=
  match strip s with
  | [] => Raise ValueError
  | t => match digits_value 0 t with
         | Some n => Ok n
         | None => Raise ValueError
         end
  end.

(** *** Matching *)

Definition in_set (p : char_set) (c : N) : bool :=
  match p with
  | CDigit => bool_decide (is_Some (decimal c))
  | CSpace => isspace c
  | CRange lo hi => ((lo <=? c) && (c <=? hi))%N
  end.

Definition groups := list (N * pystr).

(** [p*], longest run first. *)
Fixpoint greedy {A} (p : char_set) (s : pystr) (k : pystr -> option A) : option A :=
  match s with
  | c :: s' =>
      if in_set p c
      then match greedy p s' k with
           | Some a => Some a
           | None => k s
           end
      else k s
  | [] => k s
  end.

(** [rmatch r s g k]: match [r] at the head of [s], then go on with [k] on
    what is left; a failure of [k] makes the match backtrack. *)
Fixpoint rmatch {A} (r : regex) (s : pystr) (g : groups)
    (k : pystr -> groups -> option A) : option A :=
  match r with
  | REmpty => k s g
  | RChar c =>
      match s with
      | x :: s' => if (x =? c)%N then k s' g else None
      | [] => None
      end
  | RSet p =>
      match s with
      | x :: s' => if in_set p x then k s' g else None
      | [] => None
      end
  | RSeq r1 r2 => rmatch r1 s g (fun s1 g1 => rmatch r2 s1 g1 k)
  | RAlt r1 r2 =>
      match rmatch r1 s g k with
      | Some a => Some a
      | None => rmatch r2 s g k
      end
  | RPlus p =>
      match s with
      | x :: s' => if in_set p x then greedy p s' (fun t => k t g) else None
      | [] => None
      end
  | RGroup name r1 =>
      rmatch r1 s g
        (fun s1 g1 => k s1 ((name, take (length s - length s1)%nat s) :: g1))
  end.

(** [regex.match(s)]: the groups and the text after the match. *)
Definition re_match (r : regex) (s : pystr) : option (groups * pystr) :=
  rmatch r s [] (fun rest g => Some (g, rest)).

(** [TimeRE.pattern(format)]: a directive becomes its pattern, a run of
    white space becomes [\s+], any other character stands for itself. *)
Fixpoint pattern_from (in_space : bool) (format : pystr) : option regex :=
  match format with
  | [] => Some REmpty
  | c :: rest =>
      if (c =? ch "%")%N then
        match rest with
        | d :: rest' =>
            r ← directive d;
            tl ← pattern_from false rest';
            Some (RSeq r tl)
        | [] => None
        end
      else if isspace c then
        if in_space then pattern_from true rest
        else tl ← pattern_from true rest; Some (RSeq (RPlus CSpace) tl)
      else
        tl ← pattern_from false rest; Some (RSeq (RChar c) tl)
  end.

Definition pattern (format : pystr) : option regex := pattern_from false format.

Fixpoint group (g : groups) (name : N) : option pystr :=
  match g with
  | [] => None
  | (n, text) :: g' => if (n =? name)%N then Some text else group g' name
  end.

(** The value of a group, or the default of [_strptime] for a directive that
    the format does not have. *)
Definition group_int (g : groups) (name : ascii) (default : Z) : result Z :=
  match group g (ch name) with
  | Some text => py_int text
  | None => Ok default
  end.

(** [datetime.strptime(data_string, format)]. *)
Definition strptime (data_string format : pystr) : result datetime :=
  match pattern format with
  | None => Raise ValueError
  | Some format_regex =>
      match re_match format_regex data_string with
      | None => Raise ValueError
      | Some (found, rest) =>
          if negb (bool_decide (rest = [])) then Raise ValueError
          else
            y ← group_int found "Y" 1900;
            m ← group_int found "m" 1;
            d ← group_int found "d" 1;
            hh ← group_int found "H" 0;
            mm ← group_int found "M" 0;
            ss ← group_int found "S" 0;
            mk_datetime y m d hh mm ss
      end
  end.

(** ** DateResolver *)

Definition candidates : list (string * Z) :=
  [("Exif"%string, DateTimeOriginal);
   ("Exif"%string, DateTimeDigitized);
   ("0th"%string, DateTime)].

(** [exif_dict.get(ifd_name, {}).get(tag)]. *)
Definition get_tag (exif_dict : gmap string ifd_entry) (ifd_name : string) (tag : Z)
    : result (option exif_value) :=
  match exif_dict !! ifd_name with
  | None => Ok None
  | Some (IfdTags tags) => Ok (tags !! tag)
  | Some IfdOther => Raise AttributeError
  end.

(** The text of a value: bytes are decoded, anything else goes through
    [str]. *)
Definition value_text (value : exif_value) : pystr :=
  match value with
  | VBytes b => utf8_decode_ignore b
  | VStr s => s
  | VNum v => repr_num v
  end.

Definition first_format : pystr := py "%Y:%m:%d %H:%M:%S".
Definition second_format : pystr := py "%Y-%m-%d %H:%M:%S".

(** The two attempts on the text of a tag.  [Some date] is the [return] of
    the function, [None] is [continue]. *)
Definition parse_tag_text (s : pystr) : result (option pystr) :=
  try_except
    (dt ← strptime s first_format;
     Ok (Some (strftime_ymd dt)))
    (fun _ =>
       try_except
         (let s2 := replace_char (ch ":") (ch "-") 2 s in
          dt ← strptime s2 second_format;
          Ok (Some (strftime_ymd dt)))
         (fun _ => Ok None)).

(** The body of the loop for one candidate. *)
Definition try_candidate (exif_dict : gmap string ifd_entry) (cand : string * Z)
    : result (option pystr) :=
  let '(ifd_name, tag) := cand in
  try_except
    (value ← get_tag exif_dict ifd_name tag;
     if truthy value then
       match value with
       | Some v => parse_tag_text (value_text v)
       | None => Ok None
       end
     else Ok None)
    (fun _ => Ok None).

Fixpoint scan (exif_dict : gmap string ifd_entry) (cands : list (string * Z))
    : result (option pystr) :=
  match cands with
  | [] => Ok None
  | cand :: rest =>
      r ← try_candidate exif_dict cand;
      match r with
      | Some date => Ok (Some date)
      | None => scan exif_dict rest
      end
  end.

Definition get_exif_date (w : world) (path : pystr) : result (option pystr) :=
  match piexif_load w path with
  | None => Ok None
  | Some exif_dict => scan exif_dict candidates
  end.

(** Seconds of local wall-clock time at an instant, counted as the
    instants are. *)
Definition local_seconds (w : world) (t : Z) : Z := t + utcoffset w t.

(** [time.localtime(t)]: year, month, day, hour, minute, second. *)
Definition localtime (w : world) (t : Z) : Z * Z * Z * Z * Z * Z :=
  let '(y, m, d) := _ord2ymd (EPOCH_ORDINAL + local_seconds w t / 86400) in
  let secs := local_seconds w t mod 86400 in
  (y, m, d, secs / 3600, secs / 60 mod 60, secs mod 60).

(** The [datetime] of [time.localtime(t)]; it raises outside the years
    1..9999. *)
Definition local_datetime (w : world) (t : Z) : result datetime :=
  let '(y, m, d, hh, mm, ss) := localtime w t in
  mk_datetime y m d hh mm ss.

Definition max_fold_seconds := 24 * 3600.

(** [datetime.fromtimestamp(ts)]: the local date and time of an instant.
    To find out whether the time is the second of two equal wall-clock
    times, it also makes the [datetime] of the instant 24 hours before, and
    of one more when the clock was set back in between: each of them raises
    outside the years 1..9999. *)
Definition fromtimestamp (w : world) (ts : Z) : result datetime :=
  result ← local_datetime w ts;
  probe1 ← local_datetime w (ts - max_fold_seconds);
  let trans :=
    local_seconds w ts - local_seconds w (ts - max_fold_seconds) - max_fold_seconds in
  if trans <? 0 then
    probe2 ← local_datetime w (ts + trans);
    Ok result
  else Ok result.

Definition fallback_file_date (w : world) (path : pystr) : result pystr :=
  match getmtime w path with
  | None => Raise OSError
  | Some ts => dt ← fromtimestamp w ts; Ok (strftime_ymd dt)
  end.

(** [get_exif_date(path) or fallback_file_date(path)] in
    [process_single_file]. *)
Definition resolve_date (w : world) (path : pystr) : result pystr :=
  d ← get_exif_date w path;
  match d with
  | Some s => if bool_decide (s = []) then fallback_file_date w path else Ok s
  | None => fallback_file_date w path
  end.

(** ** Colours *)

(** [ImageColor.colormap], the table of colour names, and the functional
    notations of [ImageColor.getrgb] ([rgb(...)], [rgba(...)], [hsl(...)],
    [hsv(...)]), which compute in floating point: [None] when none of them
    fits. *)
Variable colormap : gmap pystr pystr.
Variable getrgb_functional : pystr -> option (list Z).

Definition hex_digit (c : N) : option Z :=
  if ((ch "0" <=? c) && (c <=? ch "9"))%N then Some (Z.of_N c - 48)
  else if ((ch "a" <=? c) && (c <=? ch "f"))%N then Some (Z.of_N c - 87)
  else None.

(** [re.match("#[a-f0-9]{n}$", color)]: the values of the [n] digits.  [$]
    also matches before a last newline. *)
Definition hex_color (n : nat) (color : pystr) : option (list Z) :=
  match color with
  | c :: body =>
      if (c =? ch "#")%N
         && bool_decide (length (take n body) = n)
         && bool_decide (drop n body = [] ∨ drop n body = [10%N])
      then mapM hex_digit (take n body)
      else None
  | [] => None
  end.

(** The notations that [getrgb] tries once the name is not in the table. *)
Definition getrgb_notations (color : pystr) : result (list Z) :=
  match hex_color 3 color with
  | Some [r; g; b] => Ok [17 * r; 17 * g; 17 * b]
  | _ =>
  match hex_color 4 color with
  | Some [r; g; b; a] => Ok [17 * r; 17 * g; 17 * b; 17 * a]
  | _ =>
  match hex_color 6 color with
  | Some [r1; r0; g1; g0; b1; b0] => Ok [16 * r1 + r0; 16 * g1 + g0; 16 * b1 + b0]
  | _ =>
  match hex_color 8 color with
  | Some [r1; r0; g1; g0; b1; b0; a1; a0] =>
      Ok [16 * r1 + r0; 16 * g1 + g0; 16 * b1 + b0; 16 * a1 + a0]
  | _ =>
  match getrgb_functional color with
  | Some rgb => Ok rgb
  | None => Raise ValueError
  end end end end end.

(** [ImageColor.getrgb(color)].  A name of the table stands for its entry,
    which is looked up in turn; [depth] is what is left of the interpreter's
    recursion limit. *)
Fixpoint getrgb_within (depth : nat) (color : pystr) : result (list Z) :=
  match depth with
  | O => Raise RecursionError
  | S depth' =>
      if (100 <? length color)%nat then Raise ValueError
      else
        let color := lower color in
        match colormap !! color with
        | Some rgb =>
            if bool_decide (rgb = []) then getrgb_notations color
            else getrgb_within depth' rgb
        | None => getrgb_notations color
        end
  end.

Definition recursion_limit : nat := 1000.

Definition getrgb (color : pystr) : result (list Z) :=
  getrgb_within recursion_limit color.

Definition white : rgba := (255, 255, 255, 255).

(** [Some c] is [return c]; [None] leaves the [try] statement. *)
Definition parse_color_to_rgba (color_str : pystr) : result rgba :=
  r ← try_except
        (rgb ← getrgb color_str;
         match rgb with
         | [r; g; b] => Ok (Some (r, g, b, 255))
         | [r; g; b; a] => Ok (Some (r, g, b, a))
         | _ => Ok None
         end)
        (fun _ => Ok None);
  match r with
  | Some c => Ok c
  | None => Ok white
  end.

(** ** Position *)

Definition compute_position (position_name : pystr) (image_size text_size : Z * Z)
    (margin : Z) : Z * Z :=
  let '(W, H) := image_size in
  let '(w, h) := text_size in
  let pos := lower position_name in
  if bool_decide (pos = py "top-left") then (margin, margin)
  else if bool_decide (pos = py "top-right") then (W - w - margin, margin)
  else if bool_decide (pos = py "bottom-left") then (margin, H - h - margin)
  else if bool_decide (pos = py "bottom-right") then (W - w - margin, H - h - margin)
  else if bool_decide (pos = py "center") then ((W - w) / 2, (H - h) / 2)
  else if bool_decide (pos = py "top-center") then ((W - w) / 2, margin)
  else if bool_decide (pos = py "bottom-center") then ((W - w) / 2, H - h - margin)
  else (margin, margin).

(** ** Fonts *)

Definition truetype (env : font_env) (file : pystr) (size : Z) : result font :=
  if truetype_loads env file size then Ok (FreeTypeFont file size) else Raise OSError.

Definition load_default (env : font_env) : result font :=
  if default_loads env then Ok DefaultFont else Raise OSError.

Definition font_error_message : pystr :=
  [26080; 27861; 21152; 36733; 23383; 20307; 65292; 35831; 20256; 20837]%N
  ++ py " --font "
  ++ [23383; 20307; 25991; 20214; 12290]%N.

(** [font_path] is [None] or a string; an empty string counts as [None]. *)
Definition ensure_font (env : font_env) (font_path : option pystr) (size : Z)
    : result font :=
  try_except
    (match font_path with
     | Some file =>
         if bool_decide (file = []) then truetype env (py "DejaVuSans.ttf") size
         else truetype env file size
     | None => truetype env (py "DejaVuSans.ttf") size
     end)
    (fun _ =>
       try_except (load_default env)
         (fun _ => Raise (RuntimeError font_error_message))).

(** ** WatermarkCompositor *)

(** [draw.textbbox((0, 0), text, font=font)]: left, top, right, bottom.
    Measuring is FreeType's business, and is taken to succeed. *)
Variable textbbox : pystr -> font -> Z * Z * Z * Z.

Definition outline_color : rgba := (0, 0, 0, 200).

Definition draw_text_on_image (img : ref) (text : pystr) (f : font)
    (color_rgba : rgba) (position : pystr) (margin : Z) (outline : bool) : cmd ref :=
  base ← convert img "RGBA";
  base_im ← read base;
  overlay ← Image_new "RGBA" (im_size base_im) (255, 255, 255, 0);
  let draw := overlay in
  let '(x0, y0, x1, y1) := textbbox text f in
  let text_w := x1 - x0 in
  let text_h := y1 - y0 in
  let '(x, y) := compute_position position (im_size base_im) (text_w, text_h) margin in
  _ ← (if outline then
         for_each [-1; 0; 1] (fun dx =>
           for_each [-1; 0; 1] (fun dy =>
             if (dx =? 0) && (dy =? 0) then mret tt
             else draw_text draw (x + dx, y + dy) text f outline_color))
       else mret tt);
  _ ← draw_text draw (x, y) text f color_rgba;
  alpha_composite base overlay.

(** ** Notions of the specification *)

(** The font that is asked for: the file given, or DejaVuSans. *)
Definition requested_font (font_path : option pystr) : pystr :=
  match font_path with
  | Some file => if bool_decide (file = []) then py "DejaVuSans.ttf" else file
  | None => py "DejaVuSans.ttf"
  end.

(** [YYYY-MM-DD]: ten characters, ASCII digits around two hyphens. *)
Definition is_ascii_digit (c : N) : bool := ((48 <=? c) && (c <=? 57))%N.

Definition date_pattern (s : pystr) : bool :=
  match s with
  | [y1; y2; y3; y4; h1; m1; m2; h2; d1; d2] =>
      forallb is_ascii_digit [y1; y2; y3; y4; m1; m2; d1; d2]
      && (h1 =? ch "-")%N && (h2 =? ch "-")%N
  | _ => false
  end.

(** A date as the resolver writes it: [YYYY-MM-DD], but for a year below
    1000 where the platform does not pad it. *)
Definition iso_date (y m d : Z) : pystr :=
  year_text pads_year y ++ py "-" ++ zfill2 m ++ py "-" ++ zfill2 d.

(** A day of the calendar, in the years that [datetime] has. *)
Definition valid_date (y m d : Z) : Prop :=
  MINYEAR <= y <= MAXYEAR ∧ 1 <= m <= 12 ∧ 1 <= d <= _days_in_month y m.

(** A string that is the date of a day of the calendar, and matches
    [YYYY-MM-DD] when the year has four digits or is padded to four. *)
Definition is_date_string (s : pystr) : Prop :=
  ∃ y m d, valid_date y m d ∧ s = iso_date y m d
           ∧ (pads_year = true ∨ 1000 <= y -> date_pattern s = true).

(** The value that a candidate names, when there is one. *)
Definition lookup_tag (exif_dict : gmap string ifd_entry) (cand : string * Z)
    : option exif_value :=
  match exif_dict !! cand.1 with
  | Some (IfdTags tags) => tags !! cand.2
  | _ => None
  end.

Definition non_empty (v : exif_value) : Prop :=
  match v with
  | VBytes b => b ≠ []
  | VStr s => s ≠ []
  | VNum (NInt n) => n ≠ 0
  | VNum (NTuple items) => items ≠ []
  end.

(** [s] parses, and [d] is its date portion: as [YYYY:MM:DD HH:MM:SS], or,
    failing that, as [YYYY-MM-DD HH:MM:SS] once its first two colons are
    replaced by hyphens. *)
Inductive parses_as (s d : pystr) : Prop :=
| parses_first dt :
    strptime s first_format = Ok dt ->
    d = iso_date (year dt) (month dt) (day dt) ->
    parses_as s d
| parses_second e dt :
    strptime s first_format = Raise e ->
    strptime (replace_char (ch ":") (ch "-") 2 s) second_format = Ok dt ->
    d = iso_date (year dt) (month dt) (day dt) ->
    parses_as s d.

(** The candidate has a value that is present, not empty, and parses, with
    date portion [d]. *)
Definition usable (exif_dict : gmap string ifd_entry) (cand : string * Z) (d : pystr)
    : Prop :=
  ∃ v, lookup_tag exif_dict cand = Some v ∧ non_empty v ∧ parses_as (value_text v) d.

(** A pattern none of whose character tests accepts a colon or a hyphen. *)
Definition plain_set (p : char_set) : bool :=
  negb (in_set p (ch "-")) && negb (in_set p (ch ":")).

Fixpoint separator_free (r : regex) : bool :=
  match r with
  | REmpty => true
  | RChar c => negb (c =? ch "-")%N && negb (c =? ch ":")%N
  | RSet p | RPlus p => plain_set p
  | RSeq r1 r2 | RAlt r1 r2 => separator_free r1 && separator_free r2
  | RGroup _ r1 => separator_free r1
  end.

(** [s.replace(":", "-", n)]. *)
Definition hyphenate (n : nat) (s : pystr) : pystr := replace_char (ch ":") (ch "-") n s.

(** The patterns of the two formats: a date with separator [sep], then
    the time of day. *)
Definition re_of (d : ascii) : regex := default REmpty (directive (ch d)).

Definition time_of_day_pattern : regex :=
  RSeq (re_of "d") (RSeq (RPlus CSpace) (RSeq (re_of "H") (RSeq (RChar (ch ":"))
    (RSeq (re_of "M") (RSeq (RChar (ch ":")) (RSeq (re_of "S") REmpty)))))).

Definition date_time_pattern (sep : N) : regex :=
  RSeq (re_of "Y") (RSeq (RChar sep) (RSeq (re_of "m") (RSeq (RChar sep)
    time_of_day_pattern))).

(** The local date of an instant. *)
Definition local_date (w : world) (ts : Z) : Z * Z * Z :=
  _ord2ymd (EPOCH_ORDINAL + local_seconds w ts / 86400).

(** The local time of the instant lies in the years 1..9999. *)
Definition representable (w : world) (t : Z) : Prop :=
  -62135596800 <= local_seconds w t < 253402300800.

(** The instants that [datetime.fromtimestamp] takes: the instant and the
    one 24 hours before it are representable, and so is the third that it
    looks at when the clock was set back in between. *)
Definition fromtimestamp_accepts (w : world) (ts : Z) : Prop :=
  representable w ts
  ∧ representable w (ts - 86400)
  ∧ (local_seconds w ts - local_seconds w (ts - 86400) - 86400 < 0 ->
     representable w (ts + (local_seconds w ts - local_seconds w (ts - 86400) - 86400))).

(** The eight draws of the outline, then the text itself. *)
Definition outline_then_text (x y : Z) (text : pystr) (f : font) (color : rgba)
    (under : pixels) : pixels :=
  DrawText
    (foldl (fun p '(dx, dy) => DrawText p (x + dx, y + dy) text f outline_color)
       under
       [(-1, -1); (-1, 0); (-1, 1); (0, -1); (0, 1); (1, -1); (1, 0); (1, 1)])
    (x, y) text f color.


(** A date written [YYYY-MM-DD], with a year of four digits. *)
Definition ymd_text (y m d : Z) : pystr :=
  zfill4 y ++ py "-" ++ zfill2 m ++ py "-" ++ zfill2 d.

(** The date portion of a text in one of the two formats that the
    specification accepts: [YYYY:MM:DD HH:MM:SS], or else
    [YYYY-MM-DD HH:MM:SS]. *)
Definition accepted_date (s : pystr) : option pystr :=
  match strptime s first_format with
  | Ok dt => Some (strftime_ymd dt)
  | Raise _ =>
      match strptime s second_format with
      | Ok dt => Some (strftime_ymd dt)
      | Raise _ => None
      end
  end.

(** No candidate holds a value, present and not empty, that is a date in
    one of the two accepted formats. *)
Definition no_accepted_date (exif_dict : gmap string ifd_entry) : Prop :=
  ∀ cand v, cand ∈ candidates ->
            lookup_tag exif_dict cand = Some v ->
            non_empty v ->
            accepted_date (value_text v) = None.

(** The date of a candidate whose value is present, not empty and in the
    format [YYYY:MM:DD HH:MM:SS]. *)
Definition canonical_date (exif_dict : gmap string ifd_entry) (cand : string * Z)
    : option pystr :=
  match lookup_tag exif_dict cand with
  | Some v =>
      if truthy (Some v) then
        match strptime (value_text v) first_format with
        | Ok dt => Some (strftime_ymd dt)
        | Raise _ => None
        end
      else None
  | None => None
  end.

(** The first such date, in the order of the candidates. *)
Definition first_canonical_date (exif_dict : gmap string ifd_entry) : option pystr :=
  foldr (fun cand later =>
           match canonical_date exif_dict cand with
           | Some d => Some d
           | None => later
           end)
    None candidates.

(** ** Tactics *)

(** Linear arithmetic with divisions by constants. *)
Ltac divlia := Z.to_euclidean_division_equations; lia.

(** Evaluate operations on literals. *)
Ltac lits :=
  repeat match goal with
  | |- context [Z.sub (Z.pos ?a) (Z.pos ?b)] =>
      let v := eval vm_compute in (Z.sub (Z.pos a) (Z.pos b)) in
      change (Z.sub (Z.pos a) (Z.pos b)) with v
  | |- context [Z.ltb (Z.pos ?a) (Z.pos ?b)] =>
      let v := eval vm_compute in (Z.ltb (Z.pos a) (Z.pos b)) in
      change (Z.ltb (Z.pos a) (Z.pos b)) with v
  | |- context [Z.eqb (Z.pos ?a) (Z.pos ?b)] =>
      let v := eval vm_compute in (Z.eqb (Z.pos a) (Z.pos b)) in
      change (Z.eqb (Z.pos a) (Z.pos b)) with v
  end.

(** Look up the tables at a literal index. *)
Ltac tables :=
  repeat match goal with
  | |- context [table_get ?t ?i] =>
      let v := eval vm_compute in (table_get t i) in
      change (table_get t i) with v
  end.


(** * Properties *)

(** ** Position *)

Lemma lower_ascii (s : pystr) :
  forallb is_ascii s = true -> lower s = List.map ascii_lower s.
Proof. intros H. unfold lower. now rewrite H. Qed.

(** C6.  The origin is the function of the image size, the text box and the
    margin that the table gives, with a division that rounds down and no
    clamping: 800x600, a 120x30 box and margin 10 give (670, 560) at
    bottom-right and (340, 285) at the centre, and a box larger than the
    image gives a negative origin. *)
Theorem C6_compute_position_table (W H w h margin : Z) :
  compute_position (py "top-left") (W, H) (w, h) margin = (margin, margin)
  ∧ compute_position (py "top-right") (W, H) (w, h) margin = (W - w - margin, margin)
  ∧ compute_position (py "bottom-left") (W, H) (w, h) margin = (margin, H - h - margin)
  ∧ compute_position (py "bottom-right") (W, H) (w, h) margin
    = (W - w - margin, H - h - margin)
  ∧ compute_position (py "center") (W, H) (w, h) margin = ((W - w) / 2, (H - h) / 2)
  ∧ compute_position (py "top-center") (W, H) (w, h) margin = ((W - w) / 2, margin)
  ∧ compute_position (py "bottom-center") (W, H) (w, h) margin
    = ((W - w) / 2, H - h - margin)
  ∧ (2 * ((W - w) / 2) <= W - w < 2 * ((W - w) / 2) + 2)
  ∧ compute_position (py "bottom-right") (800, 600) (120, 30) 10 = (670, 560)
  ∧ compute_position (py "center") (800, 600) (120, 30) 10 = (340, 285)
  ∧ compute_position (py "bottom-right") (100, 50) (120, 60) 10 = (-30, -20)
  ∧ compute_position (py "center") (100, 50) (121, 60) 10 = (-11, -5).
Proof.
  unfold compute_position.
  repeat match goal with
  | |- context [lower (py ?s)] =>
      rewrite (lower_ascii (py s)) by reflexivity
  end.
  split_and!; try reflexivity.
  - apply Z.mul_div_le. lia.
  - pose proof (Z.mod_pos_bound (W - w) 2). pose proof (Z.div_mod (W - w) 2). lia.
Qed.

(** ** The store of images *)

Lemma alloc_fresh (im : image) (h : gmap ref image) :
  ∃ r, alloc im h = Some (r, <[r := im]> h) ∧ h !! r = None.
Proof.
  exists (fresh (dom h)). split; [reflexivity|].
  apply not_elem_of_dom, is_fresh.
Qed.

Lemma read_some (r : ref) (im : image) (h : gmap ref image) :
  h !! r = Some im -> read r h = Some (im, h).
Proof. intros H. unfold read. now rewrite H. Qed.

Lemma draw_text_insert (h : gmap ref image) (d : ref) (i : image) xy text f fill :
  draw_text d xy text f fill (<[d := i]> h)
  = Some (tt, <[d := {| im_mode := im_mode i; im_size := im_size i;
                        im_pixels := DrawText (im_pixels i) xy text f fill |}]> h).
Proof. unfold draw_text. now rewrite lookup_insert_eq, insert_insert_eq. Qed.

Lemma cmd_bind_some {A B} (c : cmd A) (f : A -> cmd B) h a h' :
  c h = Some (a, h') -> (c ≫= f) h = f a h'.
Proof. intros H. unfold mbind, cmd_bind. now rewrite H. Qed.

Lemma cmd_bind_assoc {A B C} (c : cmd A) (f : A -> cmd B) (g : B -> cmd C) h :
  (c ≫= (fun a => f a ≫= g)) h = ((c ≫= f) ≫= g) h.
Proof.
  unfold mbind, cmd_bind. destruct (c h) as [[a h']|]; reflexivity.
Qed.

(** What a call does to the store, for an image that is in it. *)
Lemma draw_text_on_image_run (h : gmap ref image) img im text f color position margin
    (outline : bool) :
  h !! img = Some im ->
  ∃ base overlay r,
    let '(x0, y0, x1, y1) := textbbox text f in
    let '(x, y) := compute_position position (im_size im) (x1 - x0, y1 - y0) margin in
    let base_im := {| im_mode := "RGBA"; im_size := im_size im;
                      im_pixels := Converted "RGBA" (im_pixels im) |} in
    let over :=
      if outline then outline_then_text x y text f color (Blank (255, 255, 255, 0))
      else DrawText (Blank (255, 255, 255, 0)) (x, y) text f color in
    let overlay_im := {| im_mode := "RGBA"; im_size := im_size im; im_pixels := over |} in
    let h2 := <[overlay := overlay_im]> (<[base := base_im]> h) in
    draw_text_on_image img text f color position margin outline h
    = Some (r, <[r := {| im_mode := "RGBA"; im_size := im_size im;
                         im_pixels := AlphaComposite (im_pixels base_im) over |}]> h2)
    ∧ h !! base = None ∧ h !! overlay = None ∧ h !! r = None
    ∧ base ≠ overlay ∧ r ≠ base ∧ r ≠ overlay.
Proof.
  intros Him.
  set (base_im := {| im_mode := "RGBA"; im_size := im_size im;
                     im_pixels := Converted "RGBA" (im_pixels im) |}).
  destruct (alloc_fresh base_im h) as (base & Hbase & Hfb).
  set (h1 := <[base := base_im]> h) in *.
  set (blank := {| im_mode := "RGBA"; im_size := im_size im;
                   im_pixels := Blank (255, 255, 255, 0) |}).
  destruct (alloc_fresh blank h1) as (overlay & Hoverlay & Hfo).
  assert (Hbo : base ≠ overlay).
  { intros ->. unfold h1 in Hfo. now rewrite lookup_insert_eq in Hfo. }
  assert (Hho : h !! overlay = None).
  { unfold h1 in Hfo. now rewrite lookup_insert_ne in Hfo. }
  exists base, overlay.
  unfold draw_text_on_image.
  destruct (textbbox text f) as [[[x0 y0] x1] y1].
  destruct (compute_position position (im_size im) (x1 - x0, y1 - y0) margin)
    as [x y] eqn:Hpos.
  cbv zeta.
  set (over := if outline then _ else _).
  set (overlay_im := {| im_mode := "RGBA"; im_size := im_size im; im_pixels := over |}).
  set (h2 := <[overlay := overlay_im]> h1).
  set (res := {| im_mode := "RGBA"; im_size := im_size im;
                 im_pixels := AlphaComposite (im_pixels base_im) over |}).
  destruct (alloc_fresh res h2) as (r & Hr & Hfr).
  assert (Hrb : r ≠ base).
  { intros ->. unfold h2, h1 in Hfr.
    now rewrite lookup_insert_ne, lookup_insert_eq in Hfr. }
  assert (Hro : r ≠ overlay).
  { intros ->. unfold h2 in Hfr. now rewrite lookup_insert_eq in Hfr. }
  assert (Hhr : h !! r = None).
  { unfold h2, h1 in Hfr. now rewrite !lookup_insert_ne in Hfr. }
  exists r. split; [|done].
  assert (Hconv : convert img "RGBA" h = Some (base, h1)).
  { unfold convert. rewrite (cmd_bind_some _ _ _ _ _ (read_some _ _ _ Him)). exact Hbase. }
  rewrite (cmd_bind_some _ _ _ _ _ Hconv).
  assert (Hrd : read base h1 = Some (base_im, h1)).
  { apply read_some. unfold h1. apply lookup_insert_eq. }
  rewrite (cmd_bind_some _ _ _ _ _ Hrd).
  change (im_size base_im) with (im_size im).
  assert (Hnew : Image_new "RGBA" (im_size im) (255, 255, 255, 0) h1
                 = Some (overlay, <[overlay := blank]> h1)) by exact Hoverlay.
  rewrite (cmd_bind_some _ _ _ _ _ Hnew).
  rewrite Hpos.
  assert (Hdraw :
    ((if outline then
        for_each [-1; 0; 1] (fun dx =>
          for_each [-1; 0; 1] (fun dy =>
            if (dx =? 0) && (dy =? 0) then mret tt
            else draw_text overlay (x + dx, y + dy) text f outline_color))
      else mret tt) ≫= (fun _ => draw_text overlay (x, y) text f color))
      (<[overlay := blank]> h1) = Some (tt, h2)).
  { unfold h2, overlay_im, over. destruct outline.
    - cbn [for_each Z.eqb andb].
      unfold mbind, cmd_bind, mret, cmd_ret.
      rewrite !draw_text_insert. reflexivity.
    - unfold mbind, cmd_bind, mret, cmd_ret.
      rewrite draw_text_insert. reflexivity. }
  rewrite cmd_bind_assoc, (cmd_bind_some _ _ _ _ _ Hdraw).
  unfold alpha_composite.
  assert (Hb2 : read base h2 = Some (base_im, h2)).
  { apply read_some. unfold h2, h1.
    rewrite lookup_insert_ne by (intros E; now apply Hbo).
    apply lookup_insert_eq. }
  assert (Ho2 : read overlay h2 = Some (overlay_im, h2)).
  { apply read_some. unfold h2. apply lookup_insert_eq. }
  rewrite (cmd_bind_some _ _ _ _ _ Hb2), (cmd_bind_some _ _ _ _ _ Ho2).
  rewrite bool_decide_eq_true_2 by done.
  exact Hr.
Qed.

(** ** WatermarkCompositor *)

(** C7.  With the outline on, the overlay receives nine draws of the text:
    eight in black with alpha 200, one at each offset (dx, dy) with dx and dy
    in -1..1 other than (0, 0), and then one in the requested colour at the
    origin itself. *)
Theorem C7_outline_draws (h : gmap ref image) img im text f color position margin :
  h !! img = Some im ->
  ∃ r h' res base overlay over outline x y,
    draw_text_on_image img text f color position margin true h = Some (r, h')
    ∧ h' !! r = Some res
    ∧ im_pixels res = AlphaComposite base over
    ∧ h' !! overlay = Some {| im_mode := "RGBA"; im_size := im_size im; im_pixels := over |}
    ∧ (x, y) = (let '(x0, y0, x1, y1) := textbbox text f in
                compute_position position (im_size im) (x1 - x0, y1 - y0) margin)
    ∧ text_draws over
      = outline ++ [{| td_xy := (x, y); td_text := text; td_font := f; td_fill := color |}]
    ∧ length outline = 8%nat
    ∧ Forall (fun d => td_text d = text ∧ td_font d = f ∧ td_fill d = (0, 0, 0, 200))
        outline
    ∧ NoDup (td_xy <$> outline)
    ∧ ∀ p, p ∈ (td_xy <$> outline)
           ↔ ∃ dx dy, -1 <= dx <= 1 ∧ -1 <= dy <= 1 ∧ ¬ (dx = 0 ∧ dy = 0)
                      ∧ p = (x + dx, y + dy).
Proof.
  clear uni_decimal uni_isspace colormap getrgb_functional.
  intros Him.
  destruct (draw_text_on_image_run h img im text f color position margin true Him)
    as (base & overlay & r & Hrun).
  destruct (textbbox text f) as [[[x0 y0] x1] y1].
  destruct (compute_position position (im_size im) (x1 - x0, y1 - y0) margin)
    as [x y] eqn:Hpos.
  cbv zeta in Hrun. destruct Hrun as (Hrun & _ & _ & _ & _ & _ & Hro).
  eexists r, _, _, _, overlay, _, _, x, y.
  split; [exact Hrun|].
  split; [apply lookup_insert_eq|].
  split; [reflexivity|].
  split; [rewrite lookup_insert_ne by done; apply lookup_insert_eq|].
  split; [reflexivity|].
  split; [reflexivity|].
  split; [reflexivity|].
  split; [repeat constructor|].
  split.
  - cbn. repeat (apply NoDup_cons; split;
      [rewrite ?elem_of_cons, elem_of_nil; intros Hin;
       repeat destruct Hin as [Hin|Hin]; try done; injection Hin; lia|]).
    apply NoDup_nil_2.
  - intros [px py0]. cbn. rewrite !elem_of_cons, elem_of_nil. split.
    + intros Hin.
      repeat destruct Hin as [Hin|Hin]; try done; injection Hin as -> ->;
        eexists _, _; (split_and!; [| | | | |reflexivity]); lia.
    + intros (dx & dy & Hdx & Hdy & Hne & Hp). injection Hp as -> ->.
      assert (Hc : (dx = -1 ∨ dx = 0 ∨ dx = 1) ∧ (dy = -1 ∨ dy = 0 ∨ dy = 1)) by lia.
      destruct Hc as [[-> | [-> | ->]] [-> | [-> | ->]]]; tauto.
Qed.

(** C10.  Whatever the mode of the input image, the compositor returns a new
    image, in mode RGBA and of the size of the input, and leaves the input
    image, as every image there was, as it found it. *)
Theorem C10_new_rgba_image_input_untouched (h : gmap ref image)
    img im text f color position margin outline :
  h !! img = Some im ->
  ∃ r h' res,
    draw_text_on_image img text f color position margin outline h = Some (r, h')
    ∧ h !! r = None
    ∧ h' !! r = Some res
    ∧ im_mode res = "RGBA"%string
    ∧ im_size res = im_size im
    ∧ h' !! img = Some im
    ∧ ∀ l i, h !! l = Some i -> h' !! l = Some i.
Proof.
  intros Him.
  destruct (draw_text_on_image_run h img im text f color position margin outline Him)
    as (base & overlay & r & Hrun).
  destruct (textbbox text f) as [[[x0 y0] x1] y1].
  destruct (compute_position position (im_size im) (x1 - x0, y1 - y0) margin)
    as [x y] eqn:Hpos.
  cbv zeta in Hrun. destruct Hrun as (Hrun & Hb & Ho & Hr & _).
  assert (Hframe : ∀ l i, h !! l = Some i ->
    <[r := {| im_mode := "RGBA"; im_size := im_size im;
              im_pixels := AlphaComposite (Converted "RGBA" (im_pixels im))
                (if outline
                 then outline_then_text x y text f color (Blank (255, 255, 255, 0))
                 else DrawText (Blank (255, 255, 255, 0)) (x, y) text f color) |}]>
      (<[overlay := {| im_mode := "RGBA"; im_size := im_size im;
                       im_pixels :=
                         if outline
                         then outline_then_text x y text f color (Blank (255, 255, 255, 0))
                         else DrawText (Blank (255, 255, 255, 0)) (x, y) text f color |}]>
         (<[base := {| im_mode := "RGBA"; im_size := im_size im;
                       im_pixels := Converted "RGBA" (im_pixels im) |}]> h)) !! l
    = Some i).
  { intros l i Hl.
    rewrite !lookup_insert_ne by (intros ->; congruence). exact Hl. }
  eexists r, _, _.
  split; [exact Hrun|].
  split; [exact Hr|].
  split; [apply lookup_insert_eq|].
  split; [reflexivity|].
  split; [reflexivity|].
  split; [now apply Hframe|exact Hframe].
Qed.

(** ** Fonts *)

(** C2, as the code has it.  When the requested font cannot be loaded,
    [ensure_font] returns Pillow's default font in its place; it raises, with
    the message that the font could not be loaded, only when the default
    font cannot be loaded either. *)
Theorem C2_font_fallback (env : font_env) (font_path : option pystr) (size : Z) :
  truetype_loads env (requested_font font_path) size = false ->
  ensure_font env font_path size
  = if default_loads env then Ok DefaultFont
    else Raise (RuntimeError font_error_message).
Proof.
  intros Hreq. unfold ensure_font, requested_font, truetype, load_default in *.
  destruct font_path as [file|]; [destruct (bool_decide (file = []))|];
    rewrite Hreq; cbn; now destruct (default_loads env).
Qed.

(** ** Colours *)

Lemma getrgb_within_S (n : nat) (color : pystr) :
  getrgb_within (S n) color
  = if (100 <? length color)%nat then Raise ValueError
    else match colormap !! lower color with
         | Some rgb =>
             if bool_decide (rgb = []) then getrgb_notations (lower color)
             else getrgb_within n rgb
         | None => getrgb_notations (lower color)
         end.
Proof. reflexivity. Qed.

(** C8.  Both ["#FFFFFF"] and ["white"] give (255, 255, 255, 255), for a
    table of names that has white as [#ffffff]; and a colour of three
    channels gets alpha 255. *)
Theorem C8_white_and_alpha :
  colormap !! py "white" = Some (py "#ffffff") ->
  colormap !! py "#ffffff" = None ->
  parse_color_to_rgba (py "#FFFFFF") = Ok (255, 255, 255, 255)
  ∧ parse_color_to_rgba (py "white") = Ok (255, 255, 255, 255)
  ∧ ∀ s r g b, getrgb s = Ok [r; g; b] -> parse_color_to_rgba s = Ok (r, g, b, 255).
Proof.
  intros Hwhite Hhex.
  assert (Hget : ∀ n, getrgb_within (S n) (py "#ffffff") = Ok [255; 255; 255]).
  { intros n. rewrite getrgb_within_S.
    replace (100 <? length (py "#ffffff"))%nat with false by reflexivity.
    rewrite (lower_ascii (py "#ffffff")) by reflexivity.
    change (List.map ascii_lower (py "#ffffff")) with (py "#ffffff").
    rewrite Hhex. reflexivity. }
  split_and!.
  - unfold parse_color_to_rgba, getrgb.
    change recursion_limit with (S 999). rewrite getrgb_within_S.
    replace (100 <? length (py "#FFFFFF"))%nat with false by reflexivity.
    rewrite (lower_ascii (py "#FFFFFF")) by reflexivity.
    change (List.map ascii_lower (py "#FFFFFF")) with (py "#ffffff").
    rewrite Hhex. reflexivity.
  - unfold parse_color_to_rgba, getrgb.
    change recursion_limit with (S (S 998)). rewrite getrgb_within_S.
    replace (100 <? length (py "white"))%nat with false by reflexivity.
    rewrite (lower_ascii (py "white")) by reflexivity.
    change (List.map ascii_lower (py "white")) with (py "white").
    rewrite Hwhite.
    replace (bool_decide (py "#ffffff" = [])) with false by reflexivity.
    rewrite Hget. reflexivity.
  - intros s r g b Hs. unfold parse_color_to_rgba. rewrite Hs. reflexivity.
Qed.

(** C9.  Colour parsing never raises; a string that is not a colour, or a
    colour of neither three nor four channels, gives white. *)
Theorem C9_parse_color_total (s : pystr) :
  ∃ c, parse_color_to_rgba s = Ok c
       ∧ (∀ e, getrgb s = Raise e -> c = white)
       ∧ (∀ rgb, getrgb s = Ok rgb -> length rgb ≠ 3%nat -> length rgb ≠ 4%nat
                 -> c = white).
Proof.
  unfold parse_color_to_rgba.
  destruct (getrgb s) as [rgb|e].
  - destruct rgb as [|r [|g [|b [|a [|a' rest]]]]]; cbn;
      (eexists; split; [reflexivity|]); (split; [congruence|]);
      intros rgb' [= <-]; cbn; intros; congruence.
  - cbn. eexists; split; [reflexivity|]. split; [reflexivity|congruence].
Qed.

(** ** The calendar *)

Lemma leap_flag_sound (n400 n100 n4 : Z) :
  0 <= n100 <= 3 -> 0 <= n4 <= 24 ->
  negb (n4 =? 24) || (n100 =? 3) = true ->
  _is_leap (n400 * 400 + 1 + (n100 * 100 + n4 * 4 + 3)) = true.
Proof.
  intros H100 H4 Hflag. unfold _is_leap.
  set (y := n400 * 400 + 1 + (n100 * 100 + n4 * 4 + 3)).
  assert (H1 : y mod 4 = 0) by (subst y; divlia).
  assert (H2 : y mod 100 ≠ 0 ∨ y mod 400 = 0).
  { destruct (Z.eqb_spec n4 24) as [->|Hne]; cbn in Hflag.
    - apply Z.eqb_eq in Hflag. subst n100. right. subst y. divlia.
    - left. subst y. divlia. }
  rewrite H1. cbn.
  destruct H2 as [H2|H2].
  - destruct (Z.eqb_spec (y mod 100) 0); [contradiction|reflexivity].
  - rewrite H2. cbn. apply orb_true_r.
Qed.

Lemma ord2ymd_valid (n y m d : Z) :
  _ord2ymd n = (y, m, d) ->
  1 <= m <= 12 ∧ 1 <= d <= _days_in_month y m.
Proof.
  unfold _ord2ymd, _DI400Y, _DI100Y, _DI4Y. cbv zeta.
  set (n400 := (n - 1) / 146097).
  set (a := (n - 1) mod 146097).
  set (n100 := a / 36524).
  set (b := a mod 36524).
  set (n4 := b / 1461).
  set (c := b mod 1461).
  set (n1 := c / 365).
  set (e := c mod 365).
  assert (Ha : 0 <= a < 146097) by (apply Z.mod_pos_bound; lia).
  assert (Hb : 0 <= b < 36524) by (apply Z.mod_pos_bound; lia).
  assert (Hc : 0 <= c < 1461) by (apply Z.mod_pos_bound; lia).
  assert (He : 0 <= e < 365) by (apply Z.mod_pos_bound; lia).
  assert (H100 : 0 <= n100 <= 4) by (subst n100; divlia).
  assert (H4 : 0 <= n4 <= 24) by (subst n4; divlia).
  assert (H1 : 0 <= n1 <= 4) by (subst n1; divlia).
  destruct ((n1 =? 4) || (n100 =? 4)) eqn:Hlast.
  - intros [= <- <- <-]. unfold _days_in_month. tables. cbn. lia.
  - apply orb_false_iff in Hlast. destruct Hlast as [Hn1 Hn100].
    apply Z.eqb_neq in Hn1, Hn100.
    set (leapyear := (n1 =? 3) && (negb (n4 =? 24) || (n100 =? 3))).
    assert (Hleap : leapyear = true ->
                    _is_leap (n400 * 400 + 1 + (n100 * 100 + n4 * 4 + n1)) = true).
    { unfold leapyear. intros Hl. apply andb_true_iff in Hl. destruct Hl as [Hl1 Hl2].
      apply Z.eqb_eq in Hl1. rewrite Hl1. apply leap_flag_sound; [lia|lia|exact Hl2]. }
    set (yr := n400 * 400 + 1 + (n100 * 100 + n4 * 4 + n1)) in *.
    rewrite Z.shiftr_div_pow2 by lia. change (2 ^ 5) with 32.
    set (k := (e + 50) / 32).
    assert (Hk : 1 <= k <= 12) by (subst k; divlia).
    assert (Hke : 32 * k - 50 <= e <= 32 * k - 19) by (subst k; divlia).
    clearbody k leapyear yr e. clear -Hk Hke He Hleap.
    unfold _days_in_month.
    assert (Hcases : k = 1 ∨ k = 2 ∨ k = 3 ∨ k = 4 ∨ k = 5 ∨ k = 6 ∨ k = 7 ∨ k = 8
                     ∨ k = 9 ∨ k = 10 ∨ k = 11 ∨ k = 12) by lia.
    destruct leapyear;
      [specialize (Hleap eq_refl)|clear Hleap];
      repeat (destruct Hcases as [->|Hcases]); try subst k;
      lits; cbn [andb]; tables;
      match goal with
      | |- context [?x <? ?p] => destruct (Z.ltb_spec x p)
      end;
      intros [= <- <- <-]; lits; cbn [andb]; tables; rewrite ?Hleap;
      try lia; destruct (_is_leap yr); lia.
Qed.

Lemma ord2ymd_year_range (n y m d : Z) :
  1 <= n <= 3652059 ->
  _ord2ymd n = (y, m, d) ->
  MINYEAR <= y <= MAXYEAR.
Proof.
  intros Hn. unfold _ord2ymd, _DI400Y, _DI100Y, _DI4Y, MINYEAR, MAXYEAR. cbv zeta.
  set (n400 := (n - 1) / 146097).
  set (a := (n - 1) mod 146097).
  set (n100 := a / 36524).
  set (b := a mod 36524).
  set (n4 := b / 1461).
  set (c := b mod 1461).
  set (n1 := c / 365).
  set (e := c mod 365).
  assert (H400 : 0 <= n400 <= 24) by (subst n400; divlia).
  assert (Ha : 0 <= a < 146097 ∧ n - 1 = 146097 * n400 + a) by (subst a n400; divlia).
  assert (Hb : 0 <= b < 36524 ∧ a = 36524 * n100 + b) by (subst b n100; divlia).
  assert (Hc : 0 <= c < 1461 ∧ b = 1461 * n4 + c) by (subst c n4; divlia).
  assert (He : 0 <= e < 365 ∧ c = 365 * n1 + e) by (subst e n1; divlia).
  assert (H100 : 0 <= n100 <= 4) by (subst n100; divlia).
  assert (H4 : 0 <= n4 <= 24) by (subst n4; divlia).
  assert (H1 : 0 <= n1 <= 4) by (subst n1; divlia).
  clearbody n400 a n100 b n4 c n1 e.
  destruct ((n1 =? 4) || (n100 =? 4)) eqn:Hlast.
  - apply orb_true_iff in Hlast. rewrite !Z.eqb_eq in Hlast.
    intros [= <- _ _]. lia.
  - apply orb_false_iff in Hlast. rewrite !Z.eqb_neq in Hlast.
    destruct (_ <? _); intros [= <- _ _]; lia.
Qed.

(** ** Date strings *)

Lemma digit_char_digit (k : Z) : 0 <= k <= 9 -> is_ascii_digit (digit_char k) = true.
Proof.
  intros Hk. unfold is_ascii_digit, digit_char.
  apply andb_true_iff. rewrite !N.leb_le. lia.
Qed.

(** A year of four digits is written alike with and without padding. *)
Lemma year_text_four_digits (padded : bool) (y : Z) :
  1000 <= y <= 9999 -> year_text padded y = zfill4 y.
Proof.
  intros Hy. destruct padded; [reflexivity|]. unfold year_text.
  assert (Hall : forallb (fun k => bool_decide (str_of_int (1000 + Z.of_nat k)
                                                = zfill4 (1000 + Z.of_nat k)))
                   (List.seq 0 (Z.to_nat 9000)) = true) by (vm_compute; reflexivity).
  rewrite List.forallb_forall in Hall.
  assert (Hin : In (Z.to_nat (y - 1000)) (List.seq 0 (Z.to_nat 9000)))
    by (apply List.in_seq; lia).
  specialize (Hall _ Hin). apply bool_decide_eq_true in Hall.
  now replace (1000 + Z.of_nat (Z.to_nat (y - 1000))) with y in Hall by lia.
Qed.

Lemma iso_date_pattern (y m d : Z) :
  pads_year = true ∨ 1000 <= y <= 9999 -> date_pattern (iso_date y m d) = true.
Proof.
  intros Hy. unfold iso_date.
  assert (Hyear : year_text pads_year y = zfill4 y).
  { destruct Hy as [->|Hy]; [reflexivity|now apply year_text_four_digits]. }
  rewrite Hyear. unfold zfill4, zfill2.
  change (py "-") with [45%N]. cbn [app date_pattern forallb].
  rewrite !digit_char_digit by divlia. reflexivity.
Qed.

Lemma valid_date_string (y m d : Z) : valid_date y m d -> is_date_string (iso_date y m d).
Proof.
  intros Hv. exists y, m, d. split; [exact Hv|]. split; [reflexivity|].
  intros Hy. apply iso_date_pattern.
  destruct Hy as [Hy|Hy]; [now left|right]. unfold valid_date, MAXYEAR in Hv. lia.
Qed.

Lemma mk_datetime_inv (y m d hh mm ss : Z) (dt : datetime) :
  mk_datetime y m d hh mm ss = Ok dt ->
  valid_date y m d ∧ year dt = y ∧ month dt = m ∧ day dt = d.
Proof.
  unfold mk_datetime, _check_date_fields, _check_time_fields, valid_date,
    mbind, result_bind.
  destruct ((MINYEAR <=? y) && (y <=? MAXYEAR)) eqn:Hy; cbn [negb]; [|discriminate].
  destruct ((1 <=? m) && (m <=? 12)) eqn:Hm; cbn [negb]; [|discriminate].
  destruct ((1 <=? d) && (d <=? _days_in_month y m)) eqn:Hd; cbn [negb]; [|discriminate].
  destruct ((0 <=? hh) && (hh <=? 23)); cbn [negb]; [|discriminate].
  destruct ((0 <=? mm) && (mm <=? 59)); cbn [negb]; [|discriminate].
  destruct ((0 <=? ss) && (ss <=? 59)); cbn [negb]; [|discriminate].
  intros [= <-]. cbn.
  apply andb_true_iff in Hy, Hm, Hd. rewrite !Z.leb_le in Hy, Hm, Hd. done.
Qed.

Lemma mk_datetime_valid (y m d hh mm ss : Z) :
  valid_date y m d -> 0 <= hh <= 23 -> 0 <= mm <= 59 -> 0 <= ss <= 59 ->
  mk_datetime y m d hh mm ss
  = Ok {| year := y; month := m; day := d; hour := hh; minute := mm; second := ss |}.
Proof.
  intros (Hy & Hm & Hd) Hhh Hmm Hss.
  unfold mk_datetime, _check_date_fields, _check_time_fields.
  repeat match goal with
  | |- context [(?a <=? ?b) && (?c <=? ?e)] =>
      replace ((a <=? b) && (c <=? e)) with true
        by (symmetry; apply andb_true_iff; rewrite !Z.leb_le; lia)
  end.
  reflexivity.
Qed.

Lemma strptime_valid (s format : pystr) (dt : datetime) :
  strptime s format = Ok dt -> valid_date (year dt) (month dt) (day dt).
Proof.
  unfold strptime.
  destruct (pattern format) as [r|]; [|discriminate].
  destruct (re_match r s) as [[found rest]|]; [|discriminate].
  destruct (negb _); [discriminate|].
  destruct (group_int found "Y" 1900) as [y|]; [|discriminate].
  destruct (group_int found "m" 1) as [m|]; [|discriminate].
  destruct (group_int found "d" 1) as [d|]; [|discriminate].
  destruct (group_int found "H" 0) as [hh|]; [|discriminate].
  destruct (group_int found "M" 0) as [mm|]; [|discriminate].
  destruct (group_int found "S" 0) as [ss|]; [|discriminate].
  cbn. intros H. apply mk_datetime_inv in H as (Hv & -> & -> & ->). exact Hv.
Qed.

(** ** DateResolver *)

(** What the two attempts give. *)
Lemma parse_tag_text_eq (s : pystr) :
  parse_tag_text s
  = Ok match strptime s first_format with
       | Ok dt => Some (strftime_ymd dt)
       | Raise _ =>
           match strptime (replace_char (ch ":") (ch "-") 2 s) second_format with
           | Ok dt => Some (strftime_ymd dt)
           | Raise _ => None
           end
       end.
Proof.
  unfold parse_tag_text, try_except, mbind, result_bind.
  destruct (strptime s first_format); [reflexivity|].
  destruct (strptime (replace_char (ch ":") (ch "-") 2 s) second_format); reflexivity.
Qed.

Lemma parse_tag_text_parses (s d : pystr) :
  parse_tag_text s = Ok (Some d) <-> parses_as s d.
Proof.
  rewrite parse_tag_text_eq. split.
  - destruct (strptime s first_format) as [dt|e] eqn:H1.
    + intros [= <-]. now apply (parses_first _ _ dt).
    + destruct (strptime (replace_char (ch ":") (ch "-") 2 s) second_format)
        as [dt|e2] eqn:H2; [|discriminate].
      intros [= <-]. now apply (parses_second _ _ e dt).
  - intros [dt H1 ->|e dt H1 H2 ->].
    + now rewrite H1.
    + now rewrite H1, H2.
Qed.

Lemma parses_as_date_string (s d : pystr) : parses_as s d -> is_date_string d.
Proof.
  intros [dt H1 ->|e dt H1 H2 ->]; apply valid_date_string;
    eapply strptime_valid; eassumption.
Qed.

Lemma truthy_non_empty (v : exif_value) : truthy (Some v) = true <-> non_empty v.
Proof.
  destruct v as [b|s|[n|items]]; cbn;
    rewrite negb_true_iff, ?bool_decide_eq_false, ?Z.eqb_neq; reflexivity.
Qed.

(** The body of the loop never raises.  It returns the date of a usable
    candidate, and passes on any other. *)
Lemma try_candidate_eq (exif_dict : gmap string ifd_entry) (cand : string * Z) :
  ∃ r, try_candidate exif_dict cand = Ok r
       ∧ (∀ d, r = Some d <-> usable exif_dict cand d).
Proof.
  destruct cand as [ifd_name tag].
  unfold try_candidate, get_tag, usable, lookup_tag, try_except, mbind, result_bind.
  cbn [fst snd].
  destruct (exif_dict !! ifd_name) as [[tags|]|].
  - destruct (tags !! tag) as [v|] eqn:Hv.
    + destruct (truthy (Some v)) eqn:Ht.
      * destruct (parse_tag_text (value_text v)) as [r|e] eqn:Hp.
        -- exists r. split; [reflexivity|]. intros d. split.
           ++ intros ->. exists v. split; [reflexivity|].
              split; [now apply truthy_non_empty|now apply parse_tag_text_parses].
           ++ intros (v' & [= <-] & _ & H). apply parse_tag_text_parses in H. congruence.
        -- rewrite parse_tag_text_eq in Hp. discriminate.
      * exists None. split; [reflexivity|]. intros d. split; [discriminate|].
        intros (v' & [= <-] & Hne & _). apply truthy_non_empty in Hne. congruence.
    + exists None. split; [reflexivity|]. intros d. split; [discriminate|].
      intros (v' & Hv' & _). discriminate.
  - exists None. split; [reflexivity|]. intros d. split; [discriminate|].
    intros (v' & Hv' & _). discriminate.
  - exists None. split; [reflexivity|]. intros d. split; [discriminate|].
    intros (v' & Hv' & _). discriminate.
Qed.

Lemma scan_first_usable (exif_dict : gmap string ifd_entry)
    (pre post : list (string * Z)) (c : string * Z) (d : pystr) :
  (∀ c' d', c' ∈ pre -> ¬ usable exif_dict c' d') ->
  usable exif_dict c d ->
  scan exif_dict (pre ++ c :: post) = Ok (Some d).
Proof.
  intros Hpre Hc. induction pre as [|c0 pre IH]; cbn [app scan].
  - destruct (try_candidate_eq exif_dict c) as (r & -> & Hr). cbn.
    apply Hr in Hc. now rewrite Hc.
  - destruct (try_candidate_eq exif_dict c0) as (r & -> & Hr). cbn.
    destruct r as [d0|].
    + exfalso. apply (Hpre c0 d0); [left|]. now apply Hr.
    + apply IH. intros c' d' Hin. apply Hpre. now right.
Qed.

Lemma scan_none_usable (exif_dict : gmap string ifd_entry) (cands : list (string * Z)) :
  (∀ c d, c ∈ cands -> ¬ usable exif_dict c d) ->
  scan exif_dict cands = Ok None.
Proof.
  induction cands as [|c0 cands IH]; intros Hno; cbn [scan]; [reflexivity|].
  destruct (try_candidate_eq exif_dict c0) as (r & -> & Hr). cbn.
  destruct r as [d0|].
  - exfalso. apply (Hno c0 d0); [left|]. now apply Hr.
  - apply IH. intros c d Hin. apply Hno. now right.
Qed.

(** The scan never raises, and what it returns is the date of a usable
    candidate of the list. *)
Lemma scan_ok (exif_dict : gmap string ifd_entry) (cands : list (string * Z)) :
  ∃ r, scan exif_dict cands = Ok r
       ∧ ∀ d, r = Some d -> ∃ c, c ∈ cands ∧ usable exif_dict c d.
Proof.
  induction cands as [|c0 cands IH]; cbn [scan].
  - exists None. split; [reflexivity|discriminate].
  - destruct (try_candidate_eq exif_dict c0) as (r & -> & Hr). cbn.
    destruct r as [d0|].
    + exists (Some d0). split; [reflexivity|]. intros d [= <-].
      exists c0. split; [left|]. now apply Hr.
    + destruct IH as (r & -> & Hd). exists r. split; [reflexivity|].
      intros d Hrd. destruct (Hd d Hrd) as (c & Hin & Hu).
      exists c. split; [now right|exact Hu].
Qed.

Lemma usable_date_string exif_dict cand d : usable exif_dict cand d -> is_date_string d.
Proof. intros (v & _ & _ & Hp). eapply parses_as_date_string, Hp. Qed.

Lemma get_exif_date_ok (w : world) (path : pystr) :
  ∃ r, get_exif_date w path = Ok r ∧ ∀ d, r = Some d -> is_date_string d.
Proof.
  unfold get_exif_date. destruct (piexif_load w path) as [exif_dict|].
  - destruct (scan_ok exif_dict candidates) as (r & -> & Hd).
    exists r. split; [reflexivity|]. intros d Hrd.
    destruct (Hd d Hrd) as (c & _ & Hu). eapply usable_date_string, Hu.
  - exists None. split; [reflexivity|discriminate].
Qed.

Lemma ord2ymd_year_out (n y m d : Z) :
  ¬ (1 <= n <= 3652059) ->
  _ord2ymd n = (y, m, d) ->
  ¬ (MINYEAR <= y <= MAXYEAR).
Proof.
  intros Hn. unfold _ord2ymd, _DI400Y, _DI100Y, _DI4Y, MINYEAR, MAXYEAR. cbv zeta.
  set (n400 := (n - 1) / 146097).
  set (a := (n - 1) mod 146097).
  set (n100 := a / 36524).
  set (b := a mod 36524).
  set (n4 := b / 1461).
  set (c := b mod 1461).
  set (n1 := c / 365).
  set (e := c mod 365).
  assert (Ha : 0 <= a < 146097 ∧ n - 1 = 146097 * n400 + a) by (subst a n400; divlia).
  assert (Hb : 0 <= b < 36524 ∧ a = 36524 * n100 + b) by (subst b n100; divlia).
  assert (Hc : 0 <= c < 1461 ∧ b = 1461 * n4 + c) by (subst c n4; divlia).
  assert (He : 0 <= e < 365 ∧ c = 365 * n1 + e) by (subst e n1; divlia).
  assert (H100 : 0 <= n100 <= 4) by (subst n100; divlia).
  assert (H4 : 0 <= n4 <= 24) by (subst n4; divlia).
  assert (H1 : 0 <= n1 <= 4) by (subst n1; divlia).
  clearbody n400 a n100 b n4 c n1 e.
  destruct ((n1 =? 4) || (n100 =? 4)) eqn:Hlast.
  - apply orb_true_iff in Hlast. rewrite !Z.eqb_eq in Hlast.
    intros [= <- _ _]. lia.
  - apply orb_false_iff in Hlast. rewrite !Z.eqb_neq in Hlast.
    destruct (_ <? _); intros [= <- _ _]; lia.
Qed.

(** [time.localtime] on the instants whose local time [datetime] has. *)
Lemma local_datetime_in_range (w : world) (t : Z) :
  representable w t ->
  ∃ dt, local_datetime w t = Ok dt
        ∧ local_date w t = (year dt, month dt, day dt)
        ∧ valid_date (year dt) (month dt) (day dt).
Proof.
  unfold representable, local_datetime, localtime, local_date, EPOCH_ORDINAL.
  intros Ht.
  destruct (_ord2ymd (719163 + local_seconds w t / 86400)) as [[y m] d] eqn:Hord.
  assert (Hv : valid_date y m d).
  { unfold valid_date. split.
    - eapply ord2ymd_year_range; [|exact Hord]. divlia.
    - eapply ord2ymd_valid, Hord. }
  rewrite mk_datetime_valid by (try exact Hv; divlia).
  eexists. split; [reflexivity|]. cbn. split; [reflexivity|exact Hv].
Qed.

Lemma local_datetime_out_of_range (w : world) (t : Z) :
  ¬ representable w t -> ∃ e, local_datetime w t = Raise e.
Proof.
  unfold representable, local_datetime, localtime, EPOCH_ORDINAL. intros Ht.
  destruct (_ord2ymd (719163 + local_seconds w t / 86400)) as [[y m] d] eqn:Hord.
  destruct (mk_datetime y m d _ _ _) as [dt|e] eqn:Hmk; [|eauto].
  apply mk_datetime_inv in Hmk as ((Hy & _) & _).
  exfalso. eapply ord2ymd_year_out; [|exact Hord|exact Hy]. divlia.
Qed.

Lemma local_datetime_inv (w : world) (t : Z) (dt : datetime) :
  local_datetime w t = Ok dt ->
  local_date w t = (year dt, month dt, day dt)
  ∧ valid_date (year dt) (month dt) (day dt).
Proof.
  unfold local_datetime, localtime, local_date.
  destruct (_ord2ymd _) as [[y m] d].
  intros H. apply mk_datetime_inv in H as (Hv & -> & -> & ->). done.
Qed.

Lemma representable_dec (w : world) (t : Z) : representable w t ∨ ¬ representable w t.
Proof. unfold representable. lia. Qed.

Lemma fromtimestamp_accepted (w : world) (ts : Z) :
  fromtimestamp_accepts w ts ->
  ∃ dt, fromtimestamp w ts = Ok dt
        ∧ local_date w ts = (year dt, month dt, day dt)
        ∧ valid_date (year dt) (month dt) (day dt).
Proof.
  intros (H0 & H1 & H2). unfold fromtimestamp, max_fold_seconds, mbind, result_bind.
  change (24 * 3600) with 86400.
  destruct (local_datetime_in_range w ts H0) as (dt & -> & Hl & Hv).
  destruct (local_datetime_in_range w _ H1) as (dt1 & -> & _).
  destruct (Z.ltb_spec (local_seconds w ts - local_seconds w (ts - 86400) - 86400) 0)
    as [Hneg|Hpos].
  - destruct (local_datetime_in_range w _ (H2 Hneg)) as (dt2 & -> & _). eauto.
  - eauto.
Qed.

Lemma fromtimestamp_rejected (w : world) (ts : Z) :
  ¬ fromtimestamp_accepts w ts -> ∃ e, fromtimestamp w ts = Raise e.
Proof.
  intros Hno. unfold fromtimestamp, max_fold_seconds, mbind, result_bind.
  change (24 * 3600) with 86400.
  destruct (representable_dec w ts) as [H0|H0];
    [|destruct (local_datetime_out_of_range w ts H0) as (e & ->); eauto].
  destruct (local_datetime_in_range w ts H0) as (dt & -> & _).
  destruct (representable_dec w (ts - 86400)) as [H1|H1];
    [|destruct (local_datetime_out_of_range w _ H1) as (e & ->); eauto].
  destruct (local_datetime_in_range w _ H1) as (dt1 & -> & _).
  destruct (Z.ltb_spec (local_seconds w ts - local_seconds w (ts - 86400) - 86400) 0)
    as [Hneg|Hpos].
  - destruct (representable_dec w
      (ts + (local_seconds w ts - local_seconds w (ts - 86400) - 86400))) as [H2|H2];
      [|destruct (local_datetime_out_of_range w _ H2) as (e & ->); eauto].
    exfalso. apply Hno. done.
  - exfalso. apply Hno. split; [exact H0|]. split; [exact H1|]. lia.
Qed.

Lemma fromtimestamp_inv (w : world) (ts : Z) (dt : datetime) :
  fromtimestamp w ts = Ok dt ->
  local_date w ts = (year dt, month dt, day dt)
  ∧ valid_date (year dt) (month dt) (day dt).
Proof.
  unfold fromtimestamp, mbind, result_bind.
  destruct (local_datetime w ts) as [dt0|] eqn:H0; [|discriminate].
  apply local_datetime_inv in H0.
  destruct (local_datetime w (ts - max_fold_seconds)); [|discriminate].
  destruct (_ <? 0); [destruct (local_datetime w (ts + _)); [|discriminate]|];
    intros [= <-]; exact H0.
Qed.

Lemma fallback_file_date_inv (w : world) (path s : pystr) :
  fallback_file_date w path = Ok s -> is_date_string s.
Proof.
  unfold fallback_file_date, mbind, result_bind.
  destruct (getmtime w path) as [ts|]; [|discriminate].
  destruct (fromtimestamp w ts) as [dt|] eqn:Hdt; [|discriminate].
  intros [= <-]. apply fromtimestamp_inv in Hdt as [_ Hv].
  now apply valid_date_string.
Qed.

Lemma fallback_file_date_accepted (w : world) (path : pystr) (ts : Z) :
  getmtime w path = Some ts ->
  fromtimestamp_accepts w ts ->
  ∃ y m d, local_date w ts = (y, m, d)
           ∧ valid_date y m d
           ∧ fallback_file_date w path = Ok (iso_date y m d).
Proof.
  intros Hm Hts. unfold fallback_file_date, mbind, result_bind. rewrite Hm.
  destruct (fromtimestamp_accepted w ts Hts) as (dt & -> & Hl & Hv).
  now exists (year dt), (month dt), (day dt).
Qed.

Lemma date_string_not_empty (s : pystr) : is_date_string s -> s ≠ [].
Proof.
  intros (y & m & d & _ & -> & _). unfold iso_date. intros H.
  apply app_eq_nil in H as [_ H]. discriminate.
Qed.

Lemma resolve_date_no_exif_date (w : world) (path : pystr) :
  get_exif_date w path = Ok None ->
  resolve_date w path = fallback_file_date w path.
Proof. intros H. unfold resolve_date. now rewrite H. Qed.

Lemma resolve_date_exif_date (w : world) (path s : pystr) :
  get_exif_date w path = Ok (Some s) ->
  resolve_date w path = Ok s.
Proof.
  intros H. unfold resolve_date. rewrite H. cbn.
  destruct (get_exif_date_ok w path) as (r & Hr & Hd).
  rewrite H in Hr. injection Hr as <-.
  rewrite bool_decide_eq_false_2; [reflexivity|].
  apply date_string_not_empty, Hd. reflexivity.
Qed.

Lemma iso_date_four_digits (y m d : Z) :
  1000 <= y <= 9999 -> iso_date y m d = ymd_text y m d.
Proof. intros Hy. unfold iso_date, ymd_text. now rewrite year_text_four_digits. Qed.

Lemma fallback_file_date_raises (w : world) (path : pystr) :
  (getmtime w path = None
   ∨ ∃ ts, getmtime w path = Some ts ∧ ¬ fromtimestamp_accepts w ts) ->
  ∃ e, fallback_file_date w path = Raise e.
Proof.
  unfold fallback_file_date, mbind, result_bind.
  intros [->|(ts & -> & Hts)]; [eauto|].
  destruct (fromtimestamp_rejected w ts Hts) as (e & ->). eauto.
Qed.

(** C5, as the code has it.  Reading the metadata never raises: it gives no
    date or the date of a day of the calendar.  The whole resolution gives
    that date when there is one.  When there is none, it gives the local date
    of the last-modified time if that time can be read and
    [datetime.fromtimestamp] takes it, and raises if not.  Whatever the
    resolution returns is the date of a day of the calendar, and is written
    [YYYY-MM-DD] when its year is 1000 or later. *)
Theorem C5_resolution_outcomes (w : world) (path : pystr) :
  (∃ r, get_exif_date w path = Ok r ∧ ∀ s, r = Some s -> is_date_string s)
  ∧ (∀ s, get_exif_date w path = Ok (Some s) -> resolve_date w path = Ok s)
  ∧ (get_exif_date w path = Ok None ->
     ∀ ts, getmtime w path = Some ts -> fromtimestamp_accepts w ts ->
           ∃ y m d, local_date w ts = (y, m, d)
                    ∧ valid_date y m d
                    ∧ resolve_date w path = Ok (iso_date y m d))
  ∧ (get_exif_date w path = Ok None ->
     (getmtime w path = None
      ∨ ∃ ts, getmtime w path = Some ts ∧ ¬ fromtimestamp_accepts w ts) ->
     ∃ e, resolve_date w path = Raise e)
  ∧ (∀ s, resolve_date w path = Ok s ->
          ∃ y m d, valid_date y m d ∧ s = iso_date y m d
                   ∧ (1000 <= y -> s = ymd_text y m d ∧ date_pattern s = true)).
Proof.
  destruct (get_exif_date_ok w path) as (r & Hr & Hd).
  split; [eauto|]. split; [|split; [|split]].
  - apply resolve_date_exif_date.
  - intros Hnone ts Hm Hts. rewrite (resolve_date_no_exif_date _ _ Hnone).
    now apply fallback_file_date_accepted.
  - intros Hnone Hbad. rewrite (resolve_date_no_exif_date _ _ Hnone).
    now apply fallback_file_date_raises.
  - intros s Hs.
    assert (Hds : is_date_string s).
    { destruct r as [s0|].
      - rewrite (resolve_date_exif_date _ _ _ Hr) in Hs. injection Hs as <-.
        now apply Hd.
      - rewrite (resolve_date_no_exif_date _ _ Hr) in Hs.
        now apply fallback_file_date_inv in Hs. }
    destruct Hds as (y & m & d & Hv & -> & Hp).
    exists y, m, d. split; [exact Hv|]. split; [reflexivity|].
    intros Hy. split; [|apply Hp; now right].
    apply iso_date_four_digits. unfold valid_date, MAXYEAR in Hv. lia.
Qed.

(** ** The second attempt

    Replacing the first two colons and parsing with hyphens accepts the
    strings that the first attempt accepts, and no other. *)

Lemma hyphenate_0 (s : pystr) : hyphenate 0 s = s.
Proof. now destruct s. Qed.

Lemma hyphenate_cons_ne (n : nat) (c : N) (s : pystr) :
  c ≠ ch ":" -> hyphenate n (c :: s) = c :: hyphenate n s.
Proof.
  intros Hc. destruct n as [|n]; [now rewrite !hyphenate_0|].
  unfold hyphenate. cbn [replace_char].
  now destruct (N.eqb_spec c (ch ":")).
Qed.

Lemma hyphenate_cons_colon (n : nat) (s : pystr) :
  hyphenate (S n) (ch ":" :: s) = ch "-" :: hyphenate n s.
Proof. reflexivity. Qed.

Lemma hyphenate_length (n : nat) (s : pystr) : length (hyphenate n s) = length s.
Proof.
  revert n. induction s as [|c s IH]; intros n; [reflexivity|].
  destruct n as [|n]; [now rewrite hyphenate_0|].
  unfold hyphenate in *. cbn [replace_char].
  destruct (c =? ch ":")%N; cbn [length]; now rewrite IH.
Qed.

Lemma hyphenate_app (n : nat) (p t : pystr) :
  Forall (fun c => c ≠ ch ":") p -> hyphenate n (p ++ t) = p ++ hyphenate n t.
Proof.
  induction 1 as [|c p Hc _ IH]; [reflexivity|].
  cbn [app]. rewrite hyphenate_cons_ne by exact Hc. now rewrite IH.
Qed.

(** A test of a separator-free pattern fails on a colon and on what
    replaces it. *)
Lemma plain_set_head (p : char_set) (n : nat) (c : N) (s : pystr) :
  plain_set p = true ->
  match hyphenate n (c :: s) with
  | c' :: s' =>
      in_set p c' = in_set p c
      ∧ (in_set p c = true -> c ≠ ch ":" ∧ c' = c ∧ s' = hyphenate n s)
  | [] => False
  end.
Proof.
  unfold plain_set. intros Hp. apply andb_true_iff in Hp as [Hh Hc].
  apply negb_true_iff in Hh, Hc.
  destruct (N.eq_dec c (ch ":")) as [->|Hne].
  - destruct n as [|n].
    + rewrite hyphenate_0. split; [reflexivity|]. congruence.
    + rewrite hyphenate_cons_colon. split; congruence.
  - rewrite hyphenate_cons_ne by exact Hne. done.
Qed.

Lemma greedy_hyphenate {A} (p : char_set) (n : nat) (u : pystr)
    (k1 k2 : pystr -> option A) :
  plain_set p = true ->
  (∀ q t, u = q ++ t -> Forall (fun c => c ≠ ch ":") q -> k1 t = k2 (hyphenate n t)) ->
  greedy p u k1 = greedy p (hyphenate n u) k2.
Proof.
  intros Hp. induction u as [|c u IH]; intros Hk.
  - destruct n; cbn; apply (Hk [] []); done.
  - pose proof (plain_set_head p n c u Hp) as Hhead.
    pose proof (Hk [] (c :: u) eq_refl (Forall_nil_2 _)) as Hk0.
    destruct (hyphenate n (c :: u)) as [|c' u'] eqn:Hu; [contradiction|].
    destruct Hhead as [Htest Hin]. cbn [greedy]. rewrite Htest.
    destruct (in_set p c) eqn:Hc; [|exact Hk0].
    destruct (Hin eq_refl) as (Hne & -> & ->).
    rewrite <- IH.
    + now rewrite Hk0.
    + intros q t -> Hq. apply (Hk (c :: q) t); [reflexivity|]. now constructor.
Qed.

(** A separator-free pattern runs on a string and on the string with some
    of its colons replaced in the same way, as long as what follows does. *)
Lemma rmatch_hyphenate {A} (r : regex) :
  separator_free r = true ->
  ∀ (n : nat) (u : pystr) (g : groups) (k1 k2 : pystr -> groups -> option A),
    (∀ q t g', u = q ++ t -> Forall (fun c => c ≠ ch ":") q ->
               k1 t g' = k2 (hyphenate n t) g') ->
    rmatch r u g k1 = rmatch r (hyphenate n u) g k2.
Proof.
  induction r as [|c|p|r1 IH1 r2 IH2|r1 IH1 r2 IH2|p|name r1 IH1];
    cbn [separator_free]; intros Hfree n u g k1 k2 Hk.
  - cbn. apply (Hk [] u); done.
  - apply andb_true_iff in Hfree as [Hh Hc]. apply negb_true_iff in Hh, Hc.
    apply N.eqb_neq in Hh, Hc.
    destruct u as [|x u]; [now destruct n|].
    destruct (N.eq_dec x (ch ":")) as [->|Hne].
    + destruct n as [|n].
      * rewrite hyphenate_0. cbn [rmatch].
        destruct (N.eqb_spec (ch ":") c); [congruence|reflexivity].
      * rewrite hyphenate_cons_colon. cbn [rmatch].
        destruct (N.eqb_spec (ch ":") c); [congruence|].
        destruct (N.eqb_spec (ch "-") c); [congruence|reflexivity].
    + rewrite hyphenate_cons_ne by exact Hne. cbn [rmatch].
      destruct (x =? c)%N; [|reflexivity].
      apply (Hk [x] u); [reflexivity|]. now repeat constructor.
  - destruct u as [|x u]; [now destruct n|].
    pose proof (plain_set_head p n x u Hfree) as Hhead.
    destruct (hyphenate n (x :: u)) as [|x' u'] eqn:Hu; [contradiction|].
    destruct Hhead as [Htest Hin]. cbn [rmatch]. rewrite Htest.
    destruct (in_set p x) eqn:Hx; [|reflexivity].
    destruct (Hin eq_refl) as (Hne & -> & ->).
    apply (Hk [x] u); [reflexivity|]. now repeat constructor.
  - apply andb_true_iff in Hfree as [H1 H2]. cbn [rmatch].
    apply IH1; [exact H1|]. intros q t g' -> Hq.
    apply IH2; [exact H2|]. intros q' t' g'' -> Hq'.
    apply (Hk (q ++ q') t'); [now rewrite app_assoc|]. now apply Forall_app.
  - apply andb_true_iff in Hfree as [H1 H2]. cbn [rmatch].
    rewrite <- (IH1 H1 n u g k1 k2 Hk), <- (IH2 H2 n u g k1 k2 Hk). reflexivity.
  - destruct u as [|x u]; [now destruct n|].
    pose proof (plain_set_head p n x u Hfree) as Hhead.
    destruct (hyphenate n (x :: u)) as [|x' u'] eqn:Hu; [contradiction|].
    destruct Hhead as [Htest Hin]. cbn [rmatch]. rewrite Htest.
    destruct (in_set p x) eqn:Hx; [|reflexivity].
    destruct (Hin eq_refl) as (Hne & -> & ->).
    apply greedy_hyphenate; [exact Hfree|]. intros q t -> Hq.
    apply (Hk (x :: q) t); [reflexivity|]. now constructor.
  - cbn [rmatch]. apply IH1; [exact Hfree|]. intros q t g' -> Hq.
    rewrite (Hk q t _ eq_refl Hq).
    rewrite (hyphenate_app n q t Hq), !length_app, hyphenate_length.
    replace (length q + length t - length t)%nat with (length q) by lia.
    now rewrite !take_app_length.
Qed.

Lemma greedy_none {A} (p : char_set) (u : pystr) (k : pystr -> option A) :
  (∀ t, k t = None) -> greedy p u k = None.
Proof.
  intros Hk. induction u as [|c u IH]; cbn; [apply Hk|].
  rewrite IH, Hk. now destruct (in_set p c).
Qed.

Lemma rmatch_none {A} (r : regex) :
  ∀ (u : pystr) (g : groups) (k : pystr -> groups -> option A),
    (∀ t g', k t g' = None) -> rmatch r u g k = None.
Proof.
  induction r as [|c|p|r1 IH1 r2 IH2|r1 IH1 r2 IH2|p|name r1 IH1];
    intros u g k Hk; cbn [rmatch].
  - apply Hk.
  - destruct u as [|x u]; [reflexivity|]. destruct (x =? c)%N; [apply Hk|reflexivity].
  - destruct u as [|x u]; [reflexivity|]. destruct (in_set p x); [apply Hk|reflexivity].
  - apply IH1. intros t g'. now apply IH2.
  - now rewrite IH1, IH2.
  - destruct u as [|x u]; [reflexivity|]. destruct (in_set p x); [|reflexivity].
    apply greedy_none. intros t. apply Hk.
  - apply IH1. intros t g'. apply Hk.
Qed.

(** A separator-free pattern followed by something that fails on every
    string with colons replaced fails on such a string. *)
Lemma rmatch_hyphenate_none {A} (r : regex) (n : nat) (u : pystr) (g : groups)
    (k : pystr -> groups -> option A) :
  separator_free r = true ->
  (∀ t g', k (hyphenate n t) g' = None) ->
  rmatch r (hyphenate n u) g k = None.
Proof.
  intros Hfree Hk.
  rewrite <- (rmatch_hyphenate r Hfree n u g (fun _ _ => None) k).
  - now apply rmatch_none.
  - intros q t g' _ _. now rewrite Hk.
Qed.

Lemma pattern_first_format : pattern first_format = Some (date_time_pattern (ch ":")).
Proof. reflexivity. Qed.

Lemma pattern_second_format : pattern second_format = Some (date_time_pattern (ch "-")).
Proof. reflexivity. Qed.

Lemma rmatch_seq {A} (r1 r2 : regex) (s : pystr) (g : groups)
    (k : pystr -> groups -> option A) :
  rmatch (RSeq r1 r2) s g k = rmatch r1 s g (fun s1 g1 => rmatch r2 s1 g1 k).
Proof. reflexivity. Qed.

Lemma rmatch_char {A} (c : N) (s : pystr) (g : groups)
    (k : pystr -> groups -> option A) :
  rmatch (RChar c) s g k
  = match s with
    | x :: s' => if (x =? c)%N then k s' g else None
    | [] => None
    end.
Proof. reflexivity. Qed.

(** The colon of the time of day is not there once a colon is still to be
    replaced. *)
Lemma colon_after_hyphenate {A} (n : nat) (t : pystr) (g : groups) (r : regex)
    (k : pystr -> groups -> option A) :
  rmatch (RSeq (RChar (ch ":")) r) (hyphenate (S n) t) g k = None.
Proof.
  rewrite rmatch_seq, rmatch_char. destruct t as [|c t]; [reflexivity|].
  destruct (N.eq_dec c (ch ":")) as [->|Hne].
  - rewrite hyphenate_cons_colon. reflexivity.
  - rewrite hyphenate_cons_ne by exact Hne.
    now destruct (N.eqb_spec c (ch ":")).
Qed.

Lemma time_of_day_after_hyphenate {A} (n : nat) (u : pystr) (g : groups)
    (k : pystr -> groups -> option A) :
  rmatch time_of_day_pattern (hyphenate (S n) u) g k = None.
Proof.
  unfold time_of_day_pattern.
  rewrite rmatch_seq. apply rmatch_hyphenate_none; [reflexivity|]. intros t1 g1.
  rewrite rmatch_seq. apply rmatch_hyphenate_none; [reflexivity|]. intros t2 g2.
  rewrite rmatch_seq. apply rmatch_hyphenate_none; [reflexivity|]. intros t3 g3.
  apply colon_after_hyphenate.
Qed.

(** A hyphen, then the time of day, on a string that has two colons to
    replace. *)
Lemma hyphen_then_time_of_day {A} (n : nat) (t : pystr) (g : groups)
    (k : pystr -> groups -> option A) :
  rmatch (RSeq (RChar (ch "-")) time_of_day_pattern) (hyphenate (S (S n)) t) g k = None.
Proof.
  rewrite rmatch_seq, rmatch_char. destruct t as [|c t]; [reflexivity|].
  destruct (N.eq_dec c (ch ":")) as [->|Hne].
  - rewrite hyphenate_cons_colon. destruct (_ =? _)%N; [|reflexivity].
    apply time_of_day_after_hyphenate.
  - rewrite hyphenate_cons_ne by exact Hne. destruct (_ =? _)%N; [|reflexivity].
    apply time_of_day_after_hyphenate.
Qed.

(** The two patterns, each on its string, match alike. *)
Lemma re_match_hyphenate (s : pystr) :
  re_match (date_time_pattern (ch ":")) s
  = re_match (date_time_pattern (ch "-")) (hyphenate 2 s).
Proof.
  unfold re_match, date_time_pattern.
  rewrite !rmatch_seq. apply rmatch_hyphenate; [reflexivity|]. intros _ t g _ _.
  cbv beta. rewrite !rmatch_seq, !rmatch_char. destruct t as [|c t]; [reflexivity|].
  destruct (N.eq_dec c (ch ":")) as [->|Hne].
  - rewrite hyphenate_cons_colon. rewrite !N.eqb_refl.
    rewrite !rmatch_seq. apply rmatch_hyphenate; [reflexivity|]. intros _ t2 g2 _ _.
    cbv beta. rewrite !rmatch_seq, !rmatch_char. destruct t2 as [|c2 t2]; [reflexivity|].
    destruct (N.eq_dec c2 (ch ":")) as [->|Hne2].
    + rewrite hyphenate_cons_colon, hyphenate_0, !N.eqb_refl. reflexivity.
    + rewrite hyphenate_cons_ne by exact Hne2.
      destruct (N.eqb_spec c2 (ch ":")); [contradiction|].
      destruct (c2 =? ch "-")%N; [|reflexivity].
      symmetry. apply time_of_day_after_hyphenate.
  - rewrite hyphenate_cons_ne by exact Hne.
    destruct (N.eqb_spec c (ch ":")); [contradiction|].
    destruct (c =? ch "-")%N; [|reflexivity].
    symmetry. rewrite rmatch_seq. apply rmatch_hyphenate_none; [reflexivity|].
    intros t3 g3. apply hyphen_then_time_of_day.
Qed.

(** The retry of the resolver parses what the first attempt parses, to the
    same result, and nothing else. *)
Lemma second_attempt_is_first (s : pystr) :
  strptime (replace_char (ch ":") (ch "-") 2 s) second_format = strptime s first_format.
Proof.
  unfold strptime. rewrite pattern_first_format, pattern_second_format.
  now rewrite re_match_hyphenate.
Qed.

Lemma parse_tag_text_first_only (s : pystr) :
  parse_tag_text s
  = Ok match strptime s first_format with
       | Ok dt => Some (strftime_ymd dt)
       | Raise _ => None
       end.
Proof.
  rewrite parse_tag_text_eq, second_attempt_is_first.
  now destruct (strptime s first_format).
Qed.

(** ** Cases *)

Example strptime_canonical :
  strptime (py "2023:05:01 12:00:00") first_format
  = Ok {| year := 2023; month := 5; day := 1; hour := 12; minute := 0; second := 0 |}.
Proof. reflexivity. Qed.

Example strptime_unset_date :
  strptime (py "0000:00:00 00:00:00") first_format = Raise ValueError.
Proof. reflexivity. Qed.

Example strptime_february_30 :
  strptime (py "2023:02:30 12:00:00") first_format = Raise ValueError.
Proof. reflexivity. Qed.

Example strptime_trailing_text :
  strptime (py "2023:05:01 12:00:00Z") first_format = Raise ValueError.
Proof. reflexivity. Qed.

Example ord2ymd_leap_day : _ord2ymd (EPOCH_ORDINAL + 951782400 / 86400) = (2000, 2, 29).
Proof. reflexivity. Qed.

Example ord2ymd_last_day : _ord2ymd 3652059 = (9999, 12, 31).
Proof. reflexivity. Qed.

Example iso_date_sample : iso_date 2024 3 15 = py "2024-03-15".
Proof. unfold iso_date. rewrite year_text_four_digits by lia. reflexivity. Qed.

Example year_text_below_1000 :
  year_text true 999 = py "0999" ∧ year_text false 999 = py "999".
Proof. split; reflexivity. Qed.

Example utf8_decode_cases :
  utf8_decode_ignore [xc3; xa9] = [233%N]
  ∧ utf8_decode_ignore [x32; xff; x30] = py "20"
  ∧ utf8_decode_ignore [x32; xe2; x82] = py "2"
  ∧ utf8_decode_ignore [xe2; x28; xa1] = py "("
  ∧ utf8_decode_ignore [xf0; x9f; x98; x80] = [128512%N]
  ∧ utf8_decode_ignore [xed; xa0; x80; x78] = py "x".
Proof. repeat split. Qed.

(** C4, as the code has it.  When no candidate tag holds a date in one of
    the two accepted formats, or the metadata cannot be read at all, the
    result is that of the fallback.
    For a last-modified time that can be read, that [datetime.fromtimestamp]
    takes and whose local date lies in a year from 1000 on, it is that local
    date written [YYYY-MM-DD]; when the last-modified time cannot be read,
    or [datetime.fromtimestamp] does not take it, the resolution raises. *)
Theorem C4_fallback_to_mtime (w : world) (path : pystr) :
  (piexif_load w path = None
   ∨ ∃ exif_dict, piexif_load w path = Some exif_dict ∧ no_accepted_date exif_dict) ->
  (∀ ts y m d,
     getmtime w path = Some ts ->
     fromtimestamp_accepts w ts ->
     local_date w ts = (y, m, d) ->
     1000 <= y ->
     resolve_date w path = Ok (ymd_text y m d)
     ∧ date_pattern (ymd_text y m d) = true)
  ∧ ((getmtime w path = None
      ∨ ∃ ts, getmtime w path = Some ts ∧ ¬ fromtimestamp_accepts w ts) ->
     ∃ e, resolve_date w path = Raise e).
Proof.
  intros Hno.
  assert (Hnone : get_exif_date w path = Ok None).
  { unfold get_exif_date. destruct Hno as [->|(exif_dict & -> & Hno)]; [reflexivity|].
    apply scan_none_usable. intros c d Hc (v & Hv & Hne & Hp).
    apply parse_tag_text_parses in Hp. rewrite parse_tag_text_first_only in Hp.
    specialize (Hno c v Hc Hv Hne). unfold accepted_date in Hno.
    destruct (strptime (value_text v) first_format); discriminate. }
  rewrite (resolve_date_no_exif_date _ _ Hnone). split.
  - intros ts y m d Hm Hts Hl Hy.
    destruct (fallback_file_date_accepted w path ts Hm Hts)
      as (y' & m' & d' & Hl' & Hv & ->).
    rewrite Hl in Hl'. injection Hl' as <- <- <-.
    assert (Hy4 : 1000 <= y <= 9999) by (unfold valid_date, MAXYEAR in Hv; lia).
    rewrite <- (iso_date_four_digits y m d Hy4).
    split; [reflexivity|]. apply iso_date_pattern. now right.
  - apply fallback_file_date_raises.
Qed.

Lemma strftime_ymd_four_digits (dt : datetime) :
  1000 <= year dt <= 9999 ->
  strftime_ymd dt = ymd_text (year dt) (month dt) (day dt).
Proof.
  intros Hy. unfold strftime_ymd, ymd_text. now rewrite year_text_four_digits.
Qed.

(** The body of the loop takes the date of a candidate in the format
    [YYYY:MM:DD HH:MM:SS], and no other. *)
Lemma try_candidate_canonical (exif_dict : gmap string ifd_entry) (cand : string * Z) :
  try_candidate exif_dict cand = Ok (canonical_date exif_dict cand).
Proof.
  destruct cand as [ifd_name tag].
  unfold try_candidate, canonical_date, get_tag, lookup_tag, try_except,
    mbind, result_bind.
  cbn [fst snd].
  destruct (exif_dict !! ifd_name) as [[tags|]|]; try reflexivity.
  destruct (tags !! tag) as [v|]; [|reflexivity].
  destruct (truthy (Some v)); [|reflexivity].
  rewrite parse_tag_text_first_only.
  now destruct (strptime (value_text v) first_format).
Qed.

Lemma scan_canonical (exif_dict : gmap string ifd_entry) (cands : list (string * Z)) :
  scan exif_dict cands
  = Ok (foldr (fun cand later =>
                 match canonical_date exif_dict cand with
                 | Some d => Some d
                 | None => later
                 end)
          None cands).
Proof.
  induction cands as [|c cands IH]; cbn [scan foldr]; [reflexivity|].
  rewrite try_candidate_canonical. cbn.
  now destruct (canonical_date exif_dict c).
Qed.

(** C3, on the code.  The first candidate holds ["2023-05-01 12:00:00"],
    which is in the second of the two accepted formats and has the date
    portion 2023-05-01; the second candidate holds ["2022:01:02 03:04:05"].
    The first candidate is passed over, as in C1, and the date of the second
    is returned: a later candidate is preferred over an earlier one that
    parses.  What the code returns, for every file, is the date of the first
    candidate whose value is present, not empty and in the format
    [YYYY:MM:DD HH:MM:SS]. *)
Theorem C3_later_candidate_is_preferred :
  let original := ("Exif"%string, DateTimeOriginal) in
  let digitized := ("Exif"%string, DateTimeDigitized) in
  lookup_tag hyphenated_exif original
  = Some (VBytes (bytes_of "2023-05-01 12:00:00"))
  ∧ value_text (VBytes (bytes_of "2023-05-01 12:00:00")) = py "2023-05-01 12:00:00"
  ∧ accepted_date (py "2023-05-01 12:00:00") = Some (py "2023-05-01")
  ∧ try_candidate hyphenated_exif original = Ok None
  ∧ try_candidate hyphenated_exif digitized = Ok (Some (py "2022-01-02"))
  ∧ get_exif_date hyphenated_world (py "a.jpg") = Ok (Some (py "2022-01-02"))
  ∧ (∀ exif_dict cand,
       try_candidate exif_dict cand = Ok (canonical_date exif_dict cand))
  ∧ (∀ w path,
       get_exif_date w path = Ok (piexif_load w path ≫= first_canonical_date)).
Proof.
  cbv zeta.
  assert (Hfirst : strptime (py "2023-05-01 12:00:00") first_format = Raise ValueError)
    by (vm_compute; reflexivity).
  assert (Hsecond : strptime (py "2023-05-01 12:00:00") second_format
                    = Ok {| year := 2023; month := 5; day := 1;
                            hour := 12; minute := 0; second := 0 |})
    by (vm_compute; reflexivity).
  assert (Hd : canonical_date hyphenated_exif ("Exif"%string, DateTimeDigitized)
               = Some (py "2022-01-02")).
  { unfold canonical_date.
    change (lookup_tag hyphenated_exif ("Exif"%string, DateTimeDigitized))
      with (Some (VBytes (bytes_of "2022:01:02 03:04:05"))).
    change (truthy (Some (VBytes (bytes_of "2022:01:02 03:04:05")))) with true.
    cbv iota.
    assert (Hp : strptime (value_text (VBytes (bytes_of "2022:01:02 03:04:05")))
                   first_format
                 = Ok {| year := 2022; month := 1; day := 2;
                         hour := 3; minute := 4; second := 5 |})
      by (vm_compute; reflexivity).
    rewrite Hp, strftime_ymd_four_digits by (cbn [year]; lia). reflexivity. }
  assert (Ho : canonical_date hyphenated_exif ("Exif"%string, DateTimeOriginal) = None)
    by (vm_compute; reflexivity).
  split_and!.
  - reflexivity.
  - reflexivity.
  - unfold accepted_date. rewrite Hfirst, Hsecond.
    rewrite strftime_ymd_four_digits by (cbn [year]; lia). reflexivity.
  - now rewrite try_candidate_canonical, Ho.
  - now rewrite try_candidate_canonical, Hd.
  - unfold get_exif_date, hyphenated_world. cbn [piexif_load].
    rewrite scan_canonical. unfold candidates. cbn [foldr]. now rewrite Ho, Hd.
  - apply try_candidate_canonical.
  - intros w path. unfold get_exif_date.
    destruct (piexif_load w path) as [exif_dict|]; [|reflexivity].
    apply scan_canonical.
Qed.

(** C1, on the code.  The value ["2023-05-01 12:00:00"] does not parse as
    [YYYY:MM:DD HH:MM:SS]; the fallback then replaces the first two colons
    of the string, which are those of the time, so that the retry sees
    ["2023-05-01 12-00-00"] and fails as well: the tag is passed over, and
    metadata with this tag alone give no date, although the value itself is
    in the format of the retry.  On every string the retry gives what the
    first attempt gave. *)
Theorem C1_hyphenated_value_is_skipped :
  let s := py "2023-05-01 12:00:00" in
  let exif_dict : gmap string ifd_entry :=
    {[ "Exif"%string :=
         IfdTags {[ DateTimeOriginal := VBytes (bytes_of "2023-05-01 12:00:00") ]} ]} in
  strptime s first_format = Raise ValueError
  ∧ replace_char (ch ":") (ch "-") 2 s = py "2023-05-01 12-00-00"
  ∧ strptime (py "2023-05-01 12-00-00") second_format = Raise ValueError
  ∧ parse_tag_text s = Ok None
  ∧ scan exif_dict candidates = Ok None
  ∧ strptime s second_format
    = Ok {| year := 2023; month := 5; day := 1; hour := 12; minute := 0; second := 0 |}
  ∧ ∀ t, strptime (replace_char (ch ":") (ch "-") 2 t) second_format
         = strptime t first_format.
Proof.
  cbv zeta. split_and!; try (vm_compute; reflexivity).
  apply second_attempt_is_first.
Qed.
End Watermark.

(** * The properties at sample inputs *)

(** The requested font is missing, and what comes back is not an error but
    the default font. *)
Lemma C2_missing_font_is_replaced :
  truetype no_truetype (py "missing.ttf") 36 = Raise OSError
  ∧ ensure_font no_truetype (Some (py "missing.ttf")) 36 = Ok DefaultFont.
Proof. split; reflexivity. Qed.

Lemma C2_font_fallback_witness :
  truetype_loads no_truetype (requested_font (Some (py "missing.ttf"))) 36 = false
  ∧ ensure_font no_truetype (Some (py "missing.ttf")) 36 = Ok DefaultFont.
Proof.
  split; [reflexivity|].
  apply (C2_font_fallback no_truetype (Some (py "missing.ttf")) 36). reflexivity.
Defined.

(** No metadata and a last-modified time in the year 10000: the resolution
    raises, and there is no date.  No metadata and a last-modified time in
    the year 999, where the year is not padded: the result has nine
    characters. *)
Lemma C4_mtime_out_of_range :
  piexif_load far_world (py "a.jpg") = None
  ∧ getmtime far_world (py "a.jpg") = Some 253402300800
  ∧ resolve_date ascii_only_decimal ascii_only_isspace false far_world (py "a.jpg")
    = Raise ValueError
  ∧ piexif_load early_world (py "a.jpg") = None
  ∧ getmtime early_world (py "a.jpg") = Some (-30610224001)
  ∧ resolve_date ascii_only_decimal ascii_only_isspace false early_world (py "a.jpg")
    = Ok (py "999-12-31")
  ∧ date_pattern (py "999-12-31") = false.
Proof. repeat split. Qed.

Lemma C4_fallback_to_mtime_witness :
  (resolve_date ascii_only_decimal ascii_only_isspace false bare_world (py "a.jpg")
   = Ok (py "2024-03-15")
   ∧ date_pattern (py "2024-03-15") = true)
  ∧ (resolve_date ascii_only_decimal ascii_only_isspace false unset_world (py "a.jpg")
     = Ok (py "2024-03-15")
     ∧ date_pattern (py "2024-03-15") = true).
Proof.
  split.
  - destruct (C4_fallback_to_mtime ascii_only_decimal ascii_only_isspace false
                bare_world (py "a.jpg")) as [H _].
    + left. reflexivity.
    + apply (H 1710504000 2024 3 15).
      * reflexivity.
      * unfold fromtimestamp_accepts, representable, local_seconds. simpl. lia.
      * reflexivity.
      * lia.
  - destruct (C4_fallback_to_mtime ascii_only_decimal ascii_only_isspace false
                unset_world (py "a.jpg")) as [H _].
    + right. eexists. split; [reflexivity|].
      intros cand v Hin Hv _.
      repeat (apply elem_of_cons in Hin as [->|Hin]);
        try (now apply elem_of_nil in Hin);
        vm_compute in Hv; try discriminate.
      injection Hv as <-. vm_compute. reflexivity.
    + apply (H 1710504000 2024 3 15).
      * reflexivity.
      * unfold fromtimestamp_accepts, representable, local_seconds. simpl. lia.
      * reflexivity.
      * lia.
Defined.

(** No metadata and a last-modified time in the year 10000: the resolution
    raises.  A capture time in the year 999, where the year is not padded:
    the resolution returns nine characters. *)
Lemma C5_raises_or_short_year :
  resolve_date ascii_only_decimal ascii_only_isspace false far_world (py "a.jpg")
  = Raise ValueError
  ∧ resolve_date ascii_only_decimal ascii_only_isspace false old_world (py "a.jpg")
    = Ok (py "999-05-01")
  ∧ date_pattern (py "999-05-01") = false.
Proof. repeat split. Qed.

Lemma C5_resolution_outcomes_witness :
  resolve_date ascii_only_decimal ascii_only_isspace false sample_world (py "a.jpg")
  = Ok (py "2022-01-02")
  ∧ ∃ y m d,
      local_date bare_world 1710504000 = (y, m, d)
      ∧ resolve_date ascii_only_decimal ascii_only_isspace false bare_world (py "a.jpg")
        = Ok (iso_date false y m d).
Proof.
  split.
  - destruct (C5_resolution_outcomes ascii_only_decimal ascii_only_isspace false
                sample_world (py "a.jpg")) as (_ & H & _).
    apply H. reflexivity.
  - destruct (C5_resolution_outcomes ascii_only_decimal ascii_only_isspace false
                bare_world (py "a.jpg")) as (_ & _ & H & _).
    destruct (H eq_refl 1710504000) as (y & m & d & Hl & _ & Hr).
    + reflexivity.
    + unfold fromtimestamp_accepts, representable, local_seconds. simpl. lia.
    + exists y, m, d. split; [exact Hl|exact Hr].
Defined.

Lemma C7_outline_draws_witness :
  ∃ r h',
    draw_text_on_image ascii_only_lower sample_textbbox 1%positive (py "2024-03-15")
      DefaultFont white (py "top-left") 10 true sample_store = Some (r, h').
Proof.
  destruct (C7_outline_draws ascii_only_lower sample_textbbox sample_store 1%positive
              {| im_mode := "RGB"; im_size := (800, 600);
                 im_pixels := Decoded (py "a.jpg") |}
              (py "2024-03-15") DefaultFont white (py "top-left") 10)
    as (r & h' & _ & _ & _ & _ & _ & _ & _ & H & _).
  - reflexivity.
  - exists r, h'. exact H.
Defined.

Lemma C10_new_rgba_image_witness :
  ∃ r h' res,
    draw_text_on_image ascii_only_lower sample_textbbox 1%positive (py "2024-03-15")
      DefaultFont white (py "bottom-right") 10 false sample_store = Some (r, h')
    ∧ h' !! r = Some res
    ∧ im_mode res = "RGBA"%string
    ∧ im_size res = (800, 600)
    ∧ h' !! 1%positive = sample_store !! 1%positive.
Proof.
  destruct (C10_new_rgba_image_input_untouched ascii_only_lower sample_textbbox
              sample_store 1%positive
              {| im_mode := "RGB"; im_size := (800, 600);
                 im_pixels := Decoded (py "a.jpg") |}
              (py "2024-03-15") DefaultFont white (py "bottom-right") 10 false)
    as (r & h' & res & Hrun & _ & Hr & Hmode & Hsize & Himg & _).
  - reflexivity.
  - exists r, h', res. split_and!; [exact Hrun|exact Hr|exact Hmode|exact Hsize|].
    rewrite Himg. reflexivity.
Defined.

Lemma C8_white_and_alpha_witness :
  parse_color_to_rgba ascii_only_lower sample_colormap no_functional (py "#FFFFFF")
  = Ok (255, 255, 255, 255)
  ∧ parse_color_to_rgba ascii_only_lower sample_colormap no_functional (py "white")
    = Ok (255, 255, 255, 255).
Proof.
  destruct (C8_white_and_alpha ascii_only_lower sample_colormap no_functional)
    as (H1 & H2 & _).
  - reflexivity.
  - reflexivity.
  - split; assumption.
Defined.

(** A colour written [RRGGBB], without the [#], is not one that Pillow
    knows: it gives white. *)
Lemma C9_parse_color_total_witness :
  parse_color_to_rgba ascii_only_lower sample_colormap no_functional (py "00FF00")
  = Ok white.
Proof.
  destruct (C9_parse_color_total ascii_only_lower sample_colormap no_functional
              (py "00FF00")) as (c & -> & H & _).
  f_equal. apply (H ValueError). reflexivity.
Defined.
